(** * A shallow embedding of ninja's status-line printer (src/line_printer.cc)

    The printer writes build-progress lines to the terminal, overwrites the
    status line in place on a smart terminal, and buffers everything while an
    external command owns the console.  The POSIX branch of the source is the
    one modelled (the [_WIN32] blocks are left out). *)

From Stdlib Require Import String Ascii List Bool Arith Lia.
Import ListNotations.
Open Scope string_scope.

(** ** Bytes and strings

    A [std::string] is a [string]: a sequence of 8-bit characters that may
    hold NUL bytes. *)

Definition NUL : ascii := "000"%char.
Definition LF  : ascii := "010"%char.
Definition CR  : ascii := "013"%char.
Definition ESC : ascii := "027"%char.

(** "\n", "\r", "\x1B[K" and "\r\x1B[K\r" of the source. *)
Definition nl : string := String LF "".
Definition cr : string := String CR "".
Definition clear_to_eol : string := String ESC "[K".
Definition erase_line : string := cr ++ clear_to_eol ++ cr.

(** [std::string::empty]. *)
Definition empty (s : string) : bool :=
  match s with EmptyString => true | String _ _ => false end.

(** [s[0] == c] on a string already known to be non-empty; on the empty
    string the source never evaluates it. *)
Definition front_is (c : ascii) (s : string) : bool :=
  match s with EmptyString => false | String a _ => Ascii.eqb a c end.

(** [*s.rbegin() == c], same remark. *)
Fixpoint back_is (c : ascii) (s : string) : bool :=
  match s with
  | EmptyString => false
  | String a EmptyString => Ascii.eqb a c
  | String _ s' => back_is c s'
  end.

(** What [printf("%s", s.c_str())] prints: the bytes of [s] before its first
    NUL byte. *)
Fixpoint c_str (s : string) : string :=
  match s with
  | EmptyString => EmptyString
  | String a s' => if Ascii.eqb a NUL then EmptyString else String a (c_str s')
  end.

(** No NUL byte occurs in [s]. *)
Fixpoint nul_free (s : string) : bool :=
  match s with
  | EmptyString => true
  | String a s' => negb (Ascii.eqb a NUL) && nul_free s'
  end.

(** ** std::regex, the ECMAScript fragment used by [CustomFormat]

    The patterns of the source are built from ordinary characters, escaped
    characters, [.], bracket expressions with an optional [^] and ranges,
    capture groups, and the greedy quantifiers [*] and [+] applied to a single
    character matcher.  A compiled pattern is a flat list of nodes; the
    matcher is the backtracking one of ECMAScript: alternatives are tried in
    priority order and the first complete match wins. *)

Inductive atom : Type :=
| AChar (c : ascii)                                  (* c, or \c *)
| AAny                                               (* . *)
| ABracket (negated : bool) (ranges : list (ascii * ascii)).  (* [...] *)

Inductive node : Type :=
| NAtom (a : atom)
| NRep (a : atom) (min : nat)     (* a* is NRep a 0, a+ is NRep a 1 *)
| NOpen (i : nat)                 (* ( of group i *)
| NClose (i : nat).               (* ) of group i *)

Definition regex := list node.

Definition in_range (c : ascii) (r : ascii * ascii) : bool :=
  Nat.leb (nat_of_ascii (fst r)) (nat_of_ascii c)
  && Nat.leb (nat_of_ascii c) (nat_of_ascii (snd r)).

(** [.] matches every character but the line terminators. *)
Definition atom_matches (a : atom) (c : ascii) : bool :=
  match a with
  | AChar x => Ascii.eqb x c
  | AAny => negb (Ascii.eqb c LF || Ascii.eqb c CR)
  | ABracket neg rs => xorb neg (existsb (in_range c) rs)
  end.

(** *** Parsing a pattern

    [parse] reads the pattern text the way the [std::regex] constructor does
    for this fragment and answers [None] on anything outside it.  The C++
    literal "\\." is the two characters \ and . and is written "\." here. *)

Fixpoint parse_bracket (s : string) (acc : list (ascii * ascii))
  : option (list (ascii * ascii) * string) :=
  match s with
  | EmptyString => None
  | String a rest =>
      if Ascii.eqb a "]" then Some (rev acc, rest)
      else if Ascii.eqb a "\" then None
      else
        match rest with
        | String "-" (String b rest') =>
            if Ascii.eqb b "]" then parse_bracket rest ((a, a) :: acc)
            else parse_bracket rest' ((a, b) :: acc)
        | _ => parse_bracket rest ((a, a) :: acc)
        end
  end.

(** One character matcher at the head of [s], with what follows it. *)
Definition parse_atom (s : string) : option (atom * string) :=
  match s with
  | EmptyString => None
  | String "." rest => Some (AAny, rest)
  | String "\" (String c rest) => Some (AChar c, rest)
  | String "\" EmptyString => None
  | String "[" (String "^" rest) =>
      match parse_bracket rest [] with
      | Some (rs, rest') => Some (ABracket true rs, rest')
      | None => None
      end
  | String "[" rest =>
      match parse_bracket rest [] with
      | Some (rs, rest') => Some (ABracket false rs, rest')
      | None => None
      end
  | String c rest =>
      if existsb (Ascii.eqb c) ["*"; "+"; "?"; "{"; "}"; "|"; "^"; "$"; "("; ")"; "]"]%char
      then None else Some (AChar c, rest)
  end.

(** [fuel] bounds the number of nodes; the length of the pattern is enough.
    [next] is the number of the next capture group, [opened] the groups not
    closed yet, innermost first. *)
Fixpoint parse_nodes (fuel : nat) (s : string) (next : nat) (opened : list nat)
  : option regex :=
  match fuel with
  | O => None
  | S fuel' =>
      match s with
      | EmptyString => match opened with [] => Some [] | _ => None end
      | String "(" rest =>
          option_map (cons (NOpen next)) (parse_nodes fuel' rest (S next) (next :: opened))
      | String ")" rest =>
          match opened, rest with
          | [], _ => None
          | _, String "*" _ | _, String "+" _ | _, String "?" _ | _, String "{" _ => None
          | i :: opened', _ => option_map (cons (NClose i)) (parse_nodes fuel' rest next opened')
          end
      | _ =>
          match parse_atom s with
          | None => None
          | Some (a, String "*" rest) =>
              option_map (cons (NRep a 0)) (parse_nodes fuel' rest next opened)
          | Some (a, String "+" rest) =>
              option_map (cons (NRep a 1)) (parse_nodes fuel' rest next opened)
          | Some (a, rest) =>
              option_map (cons (NAtom a)) (parse_nodes fuel' rest next opened)
          end
      end
  end.

Definition parse (pattern : string) : option regex :=
  parse_nodes (S (String.length pattern)) pattern 1 [].

(** *** Matching *)

(** The sub-matches: the text of each closed group, and for each open group
    the input that was left when it opened. *)
Record captures : Type := {
  opened_at : list (nat * string);
  closed : list (nat * string)
}.

Definition no_captures : captures := {| opened_at := []; closed := [] |}.

Fixpoint assoc (i : nat) (l : list (nat * string)) : option string :=
  match l with
  | [] => None
  | (j, v) :: l' => if Nat.eqb i j then Some v else assoc i l'
  end.

(** The first [n] characters of [s]. *)
Fixpoint take (n : nat) (s : string) : string :=
  match n, s with
  | S n', String a s' => String a (take n' s')
  | _, _ => EmptyString
  end.

(** The part of [from] consumed when [rest] is what is left of it. *)
Definition consumed (from rest : string) : string :=
  take (String.length from - String.length rest) from.

Definition open_group (i : nat) (s : string) (c : captures) : captures :=
  {| opened_at := (i, s) :: opened_at c; closed := closed c |}.

Definition close_group (i : nat) (s : string) (c : captures) : captures :=
  match assoc i (opened_at c) with
  | Some from => {| opened_at := opened_at c; closed := (i, consumed from s) :: closed c |}
  | None => c
  end.

(** [match_here p start not_null s c] matches [p] against a prefix of [s]
    and returns what is left of [s] with the sub-matches.  [start] is the
    input at the position where the whole match began; under [not_null]
    (the flag [match_not_null]) an empty whole match is refused. *)
Fixpoint match_here (p : regex) (start : string) (not_null : bool)
  : string -> captures -> option (string * captures) :=
  match p with
  | [] => fun s c =>
      if not_null && Nat.eqb (String.length s) (String.length start)
      then None else Some (s, c)
  | NAtom a :: p' => fun s c =>
      match s with
      | String x s' => if atom_matches a x then match_here p' start not_null s' c else None
      | EmptyString => None
      end
  | NRep a min :: p' =>
      (fix rep (n : nat) (s : string) (c : captures) {struct s}
         : option (string * captures) :=
         let stop := if Nat.leb min n then match_here p' start not_null s c else None in
         match s with
         | String x s' =>
             if atom_matches a x then
               match rep (S n) s' c with
               | Some r => Some r
               | None => stop
               end
             else stop
         | EmptyString => stop
         end) 0
  | NOpen i :: p' => fun s c => match_here p' start not_null s (open_group i s c)
  | NClose i :: p' => fun s c => match_here p' start not_null s (close_group i s c)
  end.

Definition match_at (p : regex) (not_null : bool) (s : string)
  : option (string * captures) :=
  match_here p s not_null s no_captures.

(** *** Formatting a match

    The replacement text of [regex_replace]: [$n] and [$nn] stand for the
    n-th sub-match (empty when the group took no part in the match), [$&]
    for the whole match and [$$] for a dollar sign; the source uses [$1] and
    [$2] only. *)

Definition digit_of (c : ascii) : option nat :=
  let n := nat_of_ascii c in
  if Nat.leb 48 n && Nat.leb n 57 then Some (n - 48) else None.

Definition sub_match (i : nat) (whole : string) (c : captures) : string :=
  match i with
  | O => whole
  | _ => match assoc i (closed c) with Some v => v | None => "" end
  end.

Fixpoint expand (fmt : string) (whole : string) (c : captures) : string :=
  match fmt with
  | EmptyString => ""
  | String a tail =>
      if Ascii.eqb a "$" then
        match tail with
        | String d rest =>
            if Ascii.eqb d "$" then String "$" (expand rest whole c)
            else if Ascii.eqb d "&" then whole ++ expand rest whole c
            else
              match digit_of d with
              | Some n =>
                  match rest with
                  | String d2 rest2 =>
                      match digit_of d2 with
                      | Some n2 => sub_match (10 * n + n2) whole c ++ expand rest2 whole c
                      | None => sub_match n whole c ++ expand rest whole c
                      end
                  | EmptyString => sub_match n whole c
                  end
              | None => String a (expand tail whole c)
              end
        | EmptyString => String a ""
        end
      else String a (expand tail whole c)
  end.

(** *** regex_replace

    Every non-overlapping match, searched leftmost first, is replaced by the
    formatted text and the characters between matches are copied.  [skip]
    counts the characters of the current match still to be passed over.
    After an empty match the iterator first looks for a non-empty match at
    the same place and otherwise copies one character and moves on. *)
Fixpoint replace_from (p : regex) (fmt : string) (s : string) (skip : nat) : string :=
  match s with
  | EmptyString =>
      match skip, match_at p false "" with
      | O, Some (_, c) => expand fmt "" c
      | _, _ => ""
      end
  | String a s' =>
      match skip with
      | S k => replace_from p fmt s' k
      | O =>
          match match_at p false s with
          | None => String a (replace_from p fmt s' 0)
          | Some (rest, c) =>
              expand fmt (consumed s rest) c ++
              match String.length s - String.length rest with
              | S k => replace_from p fmt s' k
              | O =>
                  match match_at p true s with
                  | Some (rest2, c2) =>
                      expand fmt (consumed s rest2) c2 ++
                      replace_from p fmt s' (String.length s - String.length rest2 - 1)
                  | None => String a (replace_from p fmt s' 0)
                  end
              end
          end
      end
  end.

(** [regex_replace(input, std::regex{pattern}, fmt)].  A pattern outside the
    fragment has no compiled form and is taken to match nothing; every
    pattern of [CustomFormat] compiles ([rules_compile] below). *)
Definition regex_replace (input pattern fmt : string) : string :=
  match parse pattern with
  | Some p => replace_from p fmt input 0
  | None => input
  end.

(** ** CustomFormat *)

(** The escape character followed by [s]: "\u001b..." in the source. *)
Definition esc (s : string) : string := String ESC s.

Definition CustomFormat (input : string) : string :=
  let res := input in
  let res := regex_replace res "Building flatbuffer for (.*)"
    (esc "[35mbuilding flatbuffer" ++ esc "[0m " ++ esc "[34m$1" ++ esc "[0m") in
  let res := regex_replace res "Building rnl definition (.*)"
    (esc "[36mbuilding rnl script" ++ esc "[0m " ++ esc "[34m$1" ++ esc "[0m") in
  let res := regex_replace res "Building CXX(.*) ([^ ]+)"
    (esc "[32mbuilding c++$1 " ++ esc "[34m$2" ++ esc "[0m") in
  let res := regex_replace res "Linking CXX static library(.*) ([^ ]+)"
    (esc "[33;1mlinking: c++ static$1 " ++ esc "[34;1m$2" ++ esc "[0m") in
  let res := regex_replace res "Building C(.*) ([^ ]+)"
    (esc "[32mbuilding c  $1 " ++ esc "[34m$2" ++ esc "[0m") in
  let res := regex_replace res "Linking CXX executable(.*) ([^ ]+)"
    (esc "[33;1mlinking: c++ binary$1 " ++ esc "[34;1m$2" ++ esc "[0m") in
  let res := regex_replace res "Linking C static library(.*) ([^ ]+)"
    (esc "[33;1mlinking: c   static$1 " ++ esc "[34;1m$2" ++ esc "[0m") in
  let res := regex_replace res "Linking C(.*) ([^ ]+)"
    (esc "[33;1mlinking: c  $1 " ++ esc "[34;1m$2" ++ esc "[0m") in
  (* foo/xyz.dir/bar --> foo/bar *)
  let res := regex_replace res "[^/ ]+\.dir/" "" in
  (* foo/CMakeFiles/bar --> foo/bar *)
  let res := regex_replace res "CMakeFiles/" "" in
  (* foo.cpp.o --> foo.cpp *)
  let res := regex_replace res "\.cpp\.o" ".cpp" in
  (* Color the progress numbers e.g. [37/120]. *)
  let res := regex_replace res "\[([ 0-9]+)/([ 0-9]+)\]"
    ("[" ++ esc "[37;1m$1" ++ esc "[0m/" ++ esc "[37m$2" ++ esc "[0m]") in
  res.

(** The rules of [CustomFormat] as a table, pattern and replacement, in the
    order of the source. *)
Definition rules : list (string * string) :=
  [ ("Building flatbuffer for (.*)",
     esc "[35mbuilding flatbuffer" ++ esc "[0m " ++ esc "[34m$1" ++ esc "[0m");
    ("Building rnl definition (.*)",
     esc "[36mbuilding rnl script" ++ esc "[0m " ++ esc "[34m$1" ++ esc "[0m");
    ("Building CXX(.*) ([^ ]+)",
     esc "[32mbuilding c++$1 " ++ esc "[34m$2" ++ esc "[0m");
    ("Linking CXX static library(.*) ([^ ]+)",
     esc "[33;1mlinking: c++ static$1 " ++ esc "[34;1m$2" ++ esc "[0m");
    ("Building C(.*) ([^ ]+)",
     esc "[32mbuilding c  $1 " ++ esc "[34m$2" ++ esc "[0m");
    ("Linking CXX executable(.*) ([^ ]+)",
     esc "[33;1mlinking: c++ binary$1 " ++ esc "[34;1m$2" ++ esc "[0m");
    ("Linking C static library(.*) ([^ ]+)",
     esc "[33;1mlinking: c   static$1 " ++ esc "[34;1m$2" ++ esc "[0m");
    ("Linking C(.*) ([^ ]+)",
     esc "[33;1mlinking: c  $1 " ++ esc "[34;1m$2" ++ esc "[0m");
    ("[^/ ]+\.dir/", "");
    ("CMakeFiles/", "");
    ("\.cpp\.o", ".cpp");
    ("\[([ 0-9]+)/([ 0-9]+)\]",
     "[" ++ esc "[37;1m$1" ++ esc "[0m/" ++ esc "[37m$2" ++ esc "[0m]") ].

(** One rule applied to the text so far. *)
Definition apply_rule (res : string) (rule : string * string) : string :=
  regex_replace res (fst rule) (snd rule).

(** The text with its ANSI colour sequences (escape, bracket, parameters,
    final [m]) taken out: what the terminal shows. *)
Fixpoint strip_ansi (s : string) (in_escape : bool) : string :=
  match s with
  | EmptyString => ""
  | String a s' =>
      if in_escape then strip_ansi s' (negb (Ascii.eqb a "m"))
      else if Ascii.eqb a ESC then strip_ansi s' true
      else String a (strip_ansi s' false)
  end.

(** ** The printer and the process around it *)

Inductive LineType : Type := FULL | ELIDE.
Inductive e_reformat_mode : Type := none | pretty.
Inductive e_status_print_mode : Type := singleline | multiline | scrolling.

Definition LineType_eqb (a b : LineType) : bool :=
  match a, b with FULL, FULL | ELIDE, ELIDE => true | _, _ => false end.

(** What reaches [stdout]: bytes written by [printf] or [fwrite], and
    [fflush]. *)
Inductive event : Type :=
| Write (bytes : string)
| Flush.

(** The bytes of a trace, in order. *)
Fixpoint stdout_bytes (t : list event) : string :=
  match t with
  | [] => ""
  | Write b :: t' => b ++ stdout_bytes t'
  | Flush :: t' => stdout_bytes t'
  end.

(** The members of [LinePrinter], the function-local statics of
    [GetReformatMode] and [GetStatusPrintMode] ([None] until the first call
    initialises them), and what the process sees of its surroundings: the
    environment read by [getenv] and the column count reported by
    [ioctl(STDOUT_FILENO, TIOCGWINSZ)] ([None] when the call fails). *)
Record World : Type := {
  smart_terminal_ : bool;
  supports_color_ : bool;
  have_blank_line_ : bool;
  console_locked_ : bool;
  line_buffer_ : string;
  line_type_ : LineType;
  output_buffer_ : string;
  reformat_mode_static : option e_reformat_mode;
  status_print_mode_static : option e_status_print_mode;
  environ : string -> option string;
  ws_col : option nat
}.

Definition set_have_blank_line_ (b : bool) (w : World) : World :=
  {| smart_terminal_ := smart_terminal_ w; supports_color_ := supports_color_ w;
     have_blank_line_ := b; console_locked_ := console_locked_ w;
     line_buffer_ := line_buffer_ w; line_type_ := line_type_ w;
     output_buffer_ := output_buffer_ w;
     reformat_mode_static := reformat_mode_static w;
     status_print_mode_static := status_print_mode_static w;
     environ := environ w; ws_col := ws_col w |}.

Definition set_console_locked_ (b : bool) (w : World) : World :=
  {| smart_terminal_ := smart_terminal_ w; supports_color_ := supports_color_ w;
     have_blank_line_ := have_blank_line_ w; console_locked_ := b;
     line_buffer_ := line_buffer_ w; line_type_ := line_type_ w;
     output_buffer_ := output_buffer_ w;
     reformat_mode_static := reformat_mode_static w;
     status_print_mode_static := status_print_mode_static w;
     environ := environ w; ws_col := ws_col w |}.

Definition set_line_buffer_ (s : string) (w : World) : World :=
  {| smart_terminal_ := smart_terminal_ w; supports_color_ := supports_color_ w;
     have_blank_line_ := have_blank_line_ w; console_locked_ := console_locked_ w;
     line_buffer_ := s; line_type_ := line_type_ w;
     output_buffer_ := output_buffer_ w;
     reformat_mode_static := reformat_mode_static w;
     status_print_mode_static := status_print_mode_static w;
     environ := environ w; ws_col := ws_col w |}.

Definition set_line_type_ (t : LineType) (w : World) : World :=
  {| smart_terminal_ := smart_terminal_ w; supports_color_ := supports_color_ w;
     have_blank_line_ := have_blank_line_ w; console_locked_ := console_locked_ w;
     line_buffer_ := line_buffer_ w; line_type_ := t;
     output_buffer_ := output_buffer_ w;
     reformat_mode_static := reformat_mode_static w;
     status_print_mode_static := status_print_mode_static w;
     environ := environ w; ws_col := ws_col w |}.

Definition set_output_buffer_ (s : string) (w : World) : World :=
  {| smart_terminal_ := smart_terminal_ w; supports_color_ := supports_color_ w;
     have_blank_line_ := have_blank_line_ w; console_locked_ := console_locked_ w;
     line_buffer_ := line_buffer_ w; line_type_ := line_type_ w;
     output_buffer_ := s;
     reformat_mode_static := reformat_mode_static w;
     status_print_mode_static := status_print_mode_static w;
     environ := environ w; ws_col := ws_col w |}.

Definition set_reformat_mode_static (m : option e_reformat_mode) (w : World) : World :=
  {| smart_terminal_ := smart_terminal_ w; supports_color_ := supports_color_ w;
     have_blank_line_ := have_blank_line_ w; console_locked_ := console_locked_ w;
     line_buffer_ := line_buffer_ w; line_type_ := line_type_ w;
     output_buffer_ := output_buffer_ w;
     reformat_mode_static := m;
     status_print_mode_static := status_print_mode_static w;
     environ := environ w; ws_col := ws_col w |}.

Definition set_status_print_mode_static (m : option e_status_print_mode) (w : World) : World :=
  {| smart_terminal_ := smart_terminal_ w; supports_color_ := supports_color_ w;
     have_blank_line_ := have_blank_line_ w; console_locked_ := console_locked_ w;
     line_buffer_ := line_buffer_ w; line_type_ := line_type_ w;
     output_buffer_ := output_buffer_ w;
     reformat_mode_static := reformat_mode_static w;
     status_print_mode_static := m;
     environ := environ w; ws_col := ws_col w |}.

(** The surroundings change between calls: [setenv], a resized window. *)
Definition set_surroundings (env : string -> option string) (cols : option nat)
  (w : World) : World :=
  {| smart_terminal_ := smart_terminal_ w; supports_color_ := supports_color_ w;
     have_blank_line_ := have_blank_line_ w; console_locked_ := console_locked_ w;
     line_buffer_ := line_buffer_ w; line_type_ := line_type_ w;
     output_buffer_ := output_buffer_ w;
     reformat_mode_static := reformat_mode_static w;
     status_print_mode_static := status_print_mode_static w;
     environ := env; ws_col := cols |}.

(** *** A state monad that also collects the trace of [stdout] *)

Definition M (A : Type) : Type := World -> A * World * list event.

Definition ret {A : Type} (a : A) : M A := fun w => (a, w, []).

Definition bind {A B : Type} (m : M A) (k : A -> M B) : M B :=
  fun w =>
    let '(a, w1, t1) := m w in
    let '(b, w2, t2) := k a w1 in
    (b, w2, (t1 ++ t2)%list).

Notation "x <- m ;; k" := (bind m (fun x => k))
  (at level 61, m at next level, right associativity).
Notation "m ;; k" := (bind m (fun _ => k))
  (at level 61, right associativity).

Definition gets {A : Type} (f : World -> A) : M A := fun w => (f w, w, []).
Definition modify (f : World -> World) : M unit := fun w => (tt, f w, []).
Definition emit (e : event) : M unit := fun w => (tt, w, [e]).

(** The world and the trace a computation leaves. *)
Definition world_after {A : Type} (m : M A) (w : World) : World := snd (fst (m w)).
Definition trace_of {A : Type} (m : M A) (w : World) : list event := snd (m w).
Definition value_of {A : Type} (m : M A) (w : World) : A := fst (fst (m w)).

(** [printf("%s", s)], [fwrite(data, 1, size, stdout)] and [fflush(stdout)].
    [printf] with an empty result and [fwrite] of size 0 still appear in the
    trace, as writes of no bytes. *)
Definition printf (s : string) : M unit := emit (Write s).
Definition fwrite (data : string) : M unit := emit (Write data).
Definition fflush : M unit := emit Flush.

(** *** The constructor

    [isatty1] is the answer of [isatty(1)].  [line_type_] has no initialiser
    in the source; [indeterminate] stands for whatever it holds.  The two
    statics belong to the process, not to the object: [rm] and [sp] are what
    they hold when the printer is constructed, [None] in a process that has
    not asked for the modes yet. *)
Definition LinePrinter_new (isatty1 : bool) (indeterminate : LineType)
  (rm : option e_reformat_mode) (sp : option e_status_print_mode)
  (env : string -> option string) (cols : option nat) : World :=
  let term := env "TERM" in
  let smart :=
    isatty1 && match term with Some t => negb (String.eqb t "dumb") | None => false end in
  let color :=
    if smart then true
    else match env "CLICOLOR_FORCE" with
         | Some v => negb (String.eqb v "0")
         | None => false
         end in
  {| smart_terminal_ := smart; supports_color_ := color;
     have_blank_line_ := true; console_locked_ := false;
     line_buffer_ := ""; line_type_ := indeterminate; output_buffer_ := "";
     reformat_mode_static := rm; status_print_mode_static := sp;
     environ := env; ws_col := cols |}.

(** *** The modes, read from the environment once *)

Definition GetReformatMode : M e_reformat_mode :=
  cached <- gets reformat_mode_static ;;
  match cached with
  | Some mode => ret mode
  | None =>
      env <- gets environ ;;
      let mode :=
        match env "DSICILIA_NINJA_REFORMAT_MODE" with
        | None => none
        | Some v => if String.eqb v "pretty" then pretty else none
        end in
      modify (set_reformat_mode_static (Some mode)) ;;
      ret mode
  end.

Definition GetStatusPrintMode : M e_status_print_mode :=
  cached <- gets status_print_mode_static ;;
  match cached with
  | Some mode => ret mode
  | None =>
      env <- gets environ ;;
      let mode :=
        match env "DSICILIA_NINJA_STATUS_PRINT_MODE" with
        | None => singleline
        | Some v =>
            if String.eqb v "multiline" then multiline
            else if String.eqb v "scrolling" then scrolling
            else singleline
        end in
      modify (set_status_print_mode_static (Some mode)) ;;
      ret mode
  end.

Definition TerminalColumns (def : nat) : M nat :=
  cols <- gets ws_col ;;
  match cols with
  | Some (S n) => ret (S n)
  | _ => ret def
  end.

(** *** Raw output *)

Definition PrintOrBuffer (data : string) : M unit :=
  locked <- gets console_locked_ ;;
  if locked then
    modify (fun w => set_output_buffer_ (output_buffer_ w ++ data) w)
  else
    (* Avoid printf and C strings, since the actual output might contain null
       bytes like UTF-16 does. *)
    fwrite data.

Definition PrintWithoutNewLine (to_print : string) : M unit :=
  locked <- gets console_locked_ ;;
  line <- gets line_buffer_ ;;
  (if locked && negb (empty line) then
     modify (fun w => set_output_buffer_ (output_buffer_ w ++ line) w) ;;
     modify (fun w => set_output_buffer_ (output_buffer_ w ++ nl) w) ;;
     modify (set_line_buffer_ "")
   else ret tt) ;;
  (if negb (empty to_print) then PrintOrBuffer to_print else ret tt) ;;
  blank <- gets have_blank_line_ ;;
  modify (set_have_blank_line_
            ((negb (empty to_print) && front_is LF to_print)
             || (empty to_print && blank))).

Definition PrintOnNewLine (to_print : string) : M unit :=
  locked <- gets console_locked_ ;;
  line <- gets line_buffer_ ;;
  (if locked && negb (empty line) then
     modify (fun w => set_output_buffer_ (output_buffer_ w ++ line) w) ;;
     modify (fun w => set_output_buffer_ (output_buffer_ w ++ nl) w) ;;
     modify (set_line_buffer_ "")
   else ret tt) ;;
  blank <- gets have_blank_line_ ;;
  (if negb blank then PrintOrBuffer nl else ret tt) ;;
  (if negb (empty to_print) then PrintOrBuffer to_print else ret tt) ;;
  modify (set_have_blank_line_ (empty to_print || back_is LF to_print)).

Section Printer.

(** [ElideMiddle] is declared in util.h and defined outside this file; the
    printer is verified for whatever function it is. *)
Variable ElideMiddle : string -> nat -> string.

Definition Print (to_print : string) (type : LineType) : M unit :=
  mode <- GetReformatMode ;;
  let to_print :=
    match mode with pretty => CustomFormat to_print | none => to_print end in
  locked <- gets console_locked_ ;;
  if locked then
    modify (set_line_buffer_ to_print) ;;
    modify (set_line_type_ type)
  else
    status <- GetStatusPrintMode ;;
    match status with
    | multiline => printf (c_str to_print ++ nl)
    | _ =>
        smart <- gets smart_terminal_ ;;
        (if smart then printf cr (* Print over previous line, if any. *)
         else ret tt) ;;
        if smart && LineType_eqb type ELIDE then
          (* Limit output to width of the terminal if provided so we don't
             cause line-wrapping. *)
          cols <- gets ws_col ;;
          let to_print :=
            match cols with
            | Some (S n) => ElideMiddle to_print (S n)
            | _ => to_print
            end in
          printf (c_str to_print) ;;
          printf clear_to_eol ;;  (* Clear to end of line. *)
          fflush ;;
          modify (set_have_blank_line_ false)
        else
          printf (c_str to_print ++ nl)
    end.

(** The part of [Print] that follows the reformatting and the lock test,
    named to state what [Print] does when it reaches it. *)
Definition render (to_print : string) (type : LineType) : M unit :=
  status <- GetStatusPrintMode ;;
  match status with
  | multiline => printf (c_str to_print ++ nl)
  | _ =>
      smart <- gets smart_terminal_ ;;
      (if smart then printf cr else ret tt) ;;
      if smart && LineType_eqb type ELIDE then
        cols <- gets ws_col ;;
        let to_print :=
          match cols with
          | Some (S n) => ElideMiddle to_print (S n)
          | _ => to_print
          end in
        printf (c_str to_print) ;;
        printf clear_to_eol ;;
        fflush ;;
        modify (set_have_blank_line_ false)
      else
        printf (c_str to_print ++ nl)
  end.

(** The text [Print] goes on with. *)
Definition reformatted (w : World) (to_print : string) : string :=
  match value_of GetReformatMode w with
  | pretty => CustomFormat to_print
  | none => to_print
  end.

Definition SetConsoleLocked (locked : bool) : M unit :=
  current <- gets console_locked_ ;;
  if Bool.eqb locked current then ret tt
  else
    (if locked then
       (* Don't start a new line when we lock the console; just erase the
          current line to prepare for the custom command. *)
       printf erase_line ;; fflush
     else ret tt) ;;
    modify (set_console_locked_ locked) ;;
    if negb locked then
      (* The source passes [output_buffer_] by reference; the console is
         unlocked by now, so nothing appends to it during the call. *)
      buffered <- gets output_buffer_ ;;
      PrintWithoutNewLine buffered ;;
      line <- gets line_buffer_ ;;
      (if negb (empty line) then
         type <- gets line_type_ ;;
         Print line type
       else ret tt) ;;
      modify (set_output_buffer_ "") ;;
      modify (set_line_buffer_ "")
    else ret tt.

(** *** Sequences of calls *)

Inductive call : Type :=
| CPrint (to_print : string) (type : LineType)
| CPrintWithoutNewLine (to_print : string)
| CPrintOnNewLine (to_print : string)
| CPrintOrBuffer (data : string)
| CSetConsoleLocked (locked : bool).

Definition do_call (c : call) : M unit :=
  match c with
  | CPrint s t => Print s t
  | CPrintWithoutNewLine s => PrintWithoutNewLine s
  | CPrintOnNewLine s => PrintOnNewLine s
  | CPrintOrBuffer d => PrintOrBuffer d
  | CSetConsoleLocked b => SetConsoleLocked b
  end.

Fixpoint do_calls (cs : list call) : M unit :=
  match cs with
  | [] => ret tt
  | c :: cs' => do_call c ;; do_calls cs'
  end.

(** The worlds a program can be in: the constructor's, and whatever the
    calls and changes of the surroundings lead to from there. *)
Inductive reachable : World -> Prop :=
| reach_new : forall isatty1 lt rm sp env cols,
    reachable (LinePrinter_new isatty1 lt rm sp env cols)
| reach_call : forall w c,
    reachable w -> reachable (world_after (do_call c) w)
| reach_surroundings : forall w env cols,
    reachable w -> reachable (set_surroundings env cols w).

(** [evolves w w']: the program gets from [w] to [w'] by calls and changes
    of the surroundings. *)
Inductive evolves : World -> World -> Prop :=
| ev_refl : forall w, evolves w w
| ev_call : forall w w' c,
    evolves w w' -> evolves w (world_after (do_call c) w')
| ev_surroundings : forall w w' env cols,
    evolves w w' -> evolves w (set_surroundings env cols w').

(** What an unlocked [Print] puts on a smart terminal outside multiline
    mode: a carriage return, then the status line cut to the window width
    when the width is known, the clear-to-end-of-line sequence and a flush
    for [ELIDE]; the text and a newline for [FULL]. *)
Definition smart_output (cols : option nat) (text : string) (type : LineType)
  : list event :=
  match type with
  | ELIDE =>
      [Write cr;
       Write (c_str match cols with
                    | Some (S n) => ElideMiddle text (S n)
                    | _ => text
                    end);
       Write clear_to_eol; Flush]
  | FULL => [Write cr; Write (c_str text ++ nl)]
  end.

(** What an unlocked [Print] writes for a text already reformatted: one
    line in multiline mode and on a terminal that is not smart, the
    overwriting form on a smart terminal otherwise. *)
Definition render_output (w : World) (text : string) (type : LineType) : list event :=
  match value_of GetStatusPrintMode w with
  | multiline => [Write (c_str text ++ nl)]
  | _ =>
      if smart_terminal_ w then smart_output (ws_col w) text type
      else [Write (c_str text ++ nl)]
  end.

(** What an unlocked [Print] writes for [text]. *)
Definition unlocked_output (w : World) (text : string) (type : LineType) : list event :=
  render_output w (reformatted w text) type.

End Printer.

(** ** The documented behaviour, written out

    Second definitions that follow the wording of the specification; the
    theorems below compare them with the definitions taken from the code. *)

Module Spec.

(** If locked and a status line is pending, the pending line followed by a
    newline goes to the end of the output buffer and the pending line is
    cleared. *)
Definition flush_pending (w : World) : World :=
  if console_locked_ w && negb (empty (line_buffer_ w))
  then set_line_buffer_ "" (set_output_buffer_ (output_buffer_ w ++ (line_buffer_ w ++ nl)) w)
  else w.

(** Text is written raw, or appended to the output buffer when locked. *)
Definition write_raw (text : string) (wt : World * list event) : World * list event :=
  let (w, t) := wt in
  if console_locked_ w then (set_output_buffer_ (output_buffer_ w ++ text) w, t)
  else (w, (t ++ [Write text])%list).

Definition PrintWithoutNewLine (text : string) (w : World) : World * list event :=
  let wt := (flush_pending w, []) in
  let wt := if empty text then wt else write_raw text wt in
  (set_have_blank_line_
     (if empty text then have_blank_line_ w else front_is LF text) (fst wt),
   snd wt).

Definition PrintOnNewLine (text : string) (w : World) : World * list event :=
  let wt := (flush_pending w, []) in
  let wt := if have_blank_line_ w then wt else write_raw nl wt in
  let wt := if empty text then wt else write_raw text wt in
  (set_have_blank_line_ (empty text || back_is LF text) (fst wt), snd wt).

End Spec.

(** The text a call hands over for verbatim output. *)
Definition raw_text (c : call) : list string :=
  match c with
  | CPrintWithoutNewLine s | CPrintOnNewLine s | CPrintOrBuffer s => [s]
  | CPrint _ _ | CSetConsoleLocked _ => []
  end.

Definition raw_texts (cs : list call) : list string := flat_map raw_text cs.

(** Every call but the unlocking one. *)
Definition keeps_locked (c : call) : bool :=
  match c with CSetConsoleLocked false => false | _ => true end.

(** What a locked printer holds back: the output buffer, the pending status
    line with its kind, and the blank-line flag. *)
Record held : Type := {
  held_output : string;
  held_line : string;
  held_kind : LineType;
  held_blank : bool
}.

Definition held_of (w : World) : held :=
  {| held_output := output_buffer_ w; held_line := line_buffer_ w;
     held_kind := line_type_ w; held_blank := have_blank_line_ w |}.

(** The pending line as it joins the output buffer: with a newline, or
    nothing when no line is pending. *)
Definition flushed_line (h : held) : string :=
  if empty (held_line h) then "" else held_line h ++ nl.

(** One call on a locked console, told in terms of what is held back:
    [Print] replaces the pending line and its kind and leaves the output
    buffer alone; the raw operations append to the output buffer, the
    pending line first; a repeated lock does nothing. *)
Definition hold (reformat : string -> string) (h : held) (c : call) : held :=
  match c with
  | CPrint text type =>
      {| held_output := held_output h; held_line := reformat text;
         held_kind := type; held_blank := held_blank h |}
  | CPrintWithoutNewLine text =>
      {| held_output := held_output h ++ flushed_line h ++ text;
         held_line := ""; held_kind := held_kind h;
         held_blank := if empty text then held_blank h else front_is LF text |}
  | CPrintOnNewLine text =>
      {| held_output :=
           held_output h
           ++ (flushed_line h ++ (if held_blank h then "" else nl)) ++ text;
         held_line := ""; held_kind := held_kind h;
         held_blank := empty text || back_is LF text |}
  | CPrintOrBuffer data =>
      {| held_output := held_output h ++ data; held_line := held_line h;
         held_kind := held_kind h; held_blank := held_blank h |}
  | CSetConsoleLocked _ => h
  end.

Definition held_after (reformat : string -> string) (cs : list call) (h : held) : held :=
  fold_left (hold reformat) cs h.

(** [texts] occur in [s] one after the other, in this order, with anything
    before, between and after them. *)
Fixpoint in_order (texts : list string) (s : string) : Prop :=
  match texts with
  | [] => True
  | t :: ts => exists before after, s = before ++ t ++ after /\ in_order ts after
  end.

(** The character [c] occurs in [s]. *)
Fixpoint has_char (c : ascii) (s : string) : bool :=
  match s with
  | EmptyString => false
  | String a s' => Ascii.eqb a c || has_char c s'
  end.

(** The string without its first [n] characters. *)
Fixpoint drop (n : nat) (s : string) : string :=
  match n, s with
  | S n', String _ s' => drop n' s'
  | _, _ => s
  end.

(** Modelled from the spec: [ElideMiddle] of util.cc, which is not part of
    the sources at hand.  A text longer than [max_width] has a middle span
    replaced by "..." so that the result is exactly [max_width] long, keeping
    as much of the start and of the end as fits; a text that fits is
    returned unchanged.  It only serves to run the printer on examples. *)
Definition ElideMiddle_spec (text : string) (max_width : nat) : string :=
  if Nat.leb (String.length text) max_width then text
  else if Nat.ltb max_width 3 then take max_width "..."
  else
    let keep := max_width - 3 in
    let tail := keep / 2 in
    let head := keep - tail in
    take head text ++ "..." ++ drop (String.length text - tail) text.

Definition set_supports_color_ (b : bool) (w : World) : World :=
  {| smart_terminal_ := smart_terminal_ w; supports_color_ := b;
     have_blank_line_ := have_blank_line_ w; console_locked_ := console_locked_ w;
     line_buffer_ := line_buffer_ w; line_type_ := line_type_ w;
     output_buffer_ := output_buffer_ w;
     reformat_mode_static := reformat_mode_static w;
     status_print_mode_static := status_print_mode_static w;
     environ := environ w; ws_col := ws_col w |}.

(** The two operations for verbatim output. *)
Definition is_raw_call (c : call) : bool :=
  match c with
  | CPrintWithoutNewLine _ | CPrintOnNewLine _ => true
  | _ => false
  end.

Definition print_call (p : string * LineType) : call := CPrint (fst p) (snd p).

Definition is_full (p : string * LineType) : bool := LineType_eqb (snd p) FULL.

(** The character [c] stands as itself in the pattern, outside any
    repetition, so that every match contains it. *)
Definition is_literal (c : ascii) (n : node) : bool :=
  match n with
  | NAtom (AChar x) => Ascii.eqb x c
  | _ => false
  end.

Definition requires_char (c : ascii) (pattern : string) : bool :=
  match parse pattern with
  | Some p => existsb (is_literal c) p
  | None => true
  end.

(** Every rule of the table needs one of [chars] to match. *)
Definition rules_need (chars : list ascii) : bool :=
  forallb (fun rule => existsb (fun c => requires_char c (fst rule)) chars) rules.

(** ** Worlds to run the printer in *)

(** An environment given by its settings. *)
Fixpoint env_of (settings : list (string * string)) (name : string) : option string :=
  match settings with
  | [] => None
  | (n, v) :: rest => if String.eqb n name then Some v else env_of rest name
  end.

(** Output to a pipe, nothing set in the environment. *)
Definition pipe_world : World :=
  LinePrinter_new false FULL None None (env_of []) None.

(** Output to a pipe with the multiline status mode chosen. *)
Definition multiline_world : World :=
  LinePrinter_new false FULL None None
    (env_of [("DSICILIA_NINJA_STATUS_PRINT_MODE", "multiline")]) None.

(** An 80-column terminal with the pretty reformat mode chosen. *)
Definition pretty_tty_world : World :=
  LinePrinter_new true FULL None None
    (env_of [("TERM", "xterm"); ("DSICILIA_NINJA_REFORMAT_MODE", "pretty")])
    (Some 80).

(** An 80-column terminal, nothing chosen in the environment. *)
Definition tty_world : World :=
  LinePrinter_new true FULL None None (env_of [("TERM", "xterm")]) (Some 80).

(** The byte string a, NUL, b. *)
Definition a_nul_b : string := String "a" (String NUL "b").

(** * Facts *)

(** ** Strings *)

Lemma append_nil_r (s : string) : s ++ "" = s.
Proof. induction s as [|a s IH]; simpl; [reflexivity | now rewrite IH]. Qed.

Lemma append_assoc (a b c : string) : (a ++ b) ++ c = a ++ (b ++ c).
Proof. induction a as [|x a IH]; simpl; [reflexivity | now rewrite IH]. Qed.

Lemma empty_true_iff (s : string) : empty s = true <-> s = "".
Proof. destruct s; simpl; split; congruence. Qed.

Lemma has_char_append (c : ascii) (a b : string) :
  has_char c (a ++ b) = has_char c a || has_char c b.
Proof.
  induction a as [|x a IH]; simpl; [reflexivity|].
  now rewrite IH, orb_assoc.
Qed.

Lemma c_str_nul_free (s : string) : nul_free s = true -> c_str s = s.
Proof.
  induction s as [|a s IH]; simpl; [reflexivity|].
  destruct (Ascii.eqb a NUL); simpl; [discriminate|].
  intros H. now rewrite IH.
Qed.

Lemma back_is_cons (c a : ascii) (s : string) :
  s <> "" -> back_is c (String a s) = back_is c s.
Proof. destruct s; [congruence | reflexivity]. Qed.

Lemma back_is_append_nl (s : string) : back_is LF (s ++ nl) = true.
Proof.
  induction s as [|a s IH]; [reflexivity|].
  change (String a s ++ nl) with (String a (s ++ nl)).
  rewrite back_is_cons; [exact IH | destruct s; discriminate].
Qed.

Lemma back_is_true_iff (s : string) :
  back_is LF s = true <-> exists init, s = init ++ nl.
Proof.
  split.
  - induction s as [|a s IH]; [discriminate|].
    destruct s as [|b s].
    + cbn [back_is]. intros H. apply Ascii.eqb_eq in H. subst a. now exists "".
    + rewrite back_is_cons by discriminate. intros H.
      destruct (IH H) as [init E]. exists (String a init). cbn [append]. now rewrite E.
  - intros [init ->]. apply back_is_append_nl.
Qed.

(** ** The monad *)

Ltac run :=
  cbv beta iota zeta delta
    [bind ret gets modify emit printf fwrite fflush world_after trace_of value_of
     PrintOrBuffer PrintWithoutNewLine PrintOnNewLine Print SetConsoleLocked
     GetReformatMode GetStatusPrintMode
     Spec.PrintWithoutNewLine Spec.PrintOnNewLine Spec.flush_pending Spec.write_raw
     do_call
     set_have_blank_line_ set_console_locked_ set_line_buffer_ set_line_type_
     set_output_buffer_ set_reformat_mode_static set_status_print_mode_static
     smart_terminal_ supports_color_ have_blank_line_ console_locked_ line_buffer_
     line_type_ output_buffer_ reformat_mode_static status_print_mode_static
     environ ws_col fst snd].

(** The monad's plumbing only; the printer's operations stay folded. *)
Ltac step :=
  cbv beta iota zeta delta
    [bind ret gets modify emit printf fwrite fflush world_after trace_of value_of
     set_have_blank_line_ set_console_locked_ set_line_buffer_ set_line_type_
     set_output_buffer_ set_reformat_mode_static set_status_print_mode_static
     smart_terminal_ supports_color_ have_blank_line_ console_locked_ line_buffer_
     line_type_ output_buffer_ reformat_mode_static status_print_mode_static
     environ ws_col fst snd].

(** Case analysis on whatever a [match] or [if] of the goal is stuck on. *)
Ltac case_scrutinee :=
  match goal with
  | |- context [match ?x with _ => _ end] =>
      lazymatch type of x with
      | bool => destruct x
      | option _ => destruct x
      | nat => destruct x
      | LineType => destruct x
      | e_status_print_mode => destruct x
      | e_reformat_mode => destruct x
      end
  end.

(** Booleans decided by the shape of a string. *)
Ltac bools := cbn [andb negb orb empty front_is xorb Bool.eqb LineType_eqb].

Ltac crunch := repeat (progress (run; bools) || case_scrutinee).

Section Facts.

Variable ElideMiddle : string -> nat -> string.

Local Abbreviation Print := (Print ElideMiddle).
Local Abbreviation render := (render ElideMiddle).
Local Abbreviation SetConsoleLocked := (SetConsoleLocked ElideMiddle).
Local Abbreviation do_call := (do_call ElideMiddle).
Local Abbreviation do_calls := (do_calls ElideMiddle).
Local Abbreviation reachable := (reachable ElideMiddle).
Local Abbreviation evolves := (evolves ElideMiddle).
Local Abbreviation smart_output := (smart_output ElideMiddle).
Local Abbreviation render_output := (render_output ElideMiddle).
Local Abbreviation unlocked_output := (unlocked_output ElideMiddle).

(** ** PrintWithoutNewLine and PrintOnNewLine *)

(** C4.  For every text and every world, [PrintWithoutNewLine] does what the
    specification says: when locked with a pending status line, the line and
    a newline go to the output buffer and the pending line is cleared; a
    non-empty text is then written raw, or appended to the output buffer when
    locked; and afterwards [have_blank_line_] holds exactly when the text is
    non-empty and begins with a newline, or is empty and the flag held
    before. *)
Theorem PrintWithoutNewLine_correct (text : string) (w : World) :
  PrintWithoutNewLine text w
    = (tt, fst (Spec.PrintWithoutNewLine text w), snd (Spec.PrintWithoutNewLine text w))
  /\ (have_blank_line_ (world_after (PrintWithoutNewLine text) w) = true <->
      (text <> "" /\ exists rest, text = String LF rest)
      \/ (text = "" /\ have_blank_line_ w = true)).
Proof.
  destruct w as [sm col bl lk lb lt ob rm sp env cols].
  split.
  - destruct text as [|a text]; destruct lk; run; bools;
      destruct (empty lb); bools; run; cbn [app];
      rewrite ?append_assoc, ?append_nil_r, ?orb_false_r; reflexivity.
  - assert (E : have_blank_line_ (world_after (PrintWithoutNewLine text)
                  (Build_World sm col bl lk lb lt ob rm sp env cols))
                = if empty text then bl else front_is LF text).
    { destruct text as [|a text]; destruct lk; run; bools;
        destruct (empty lb); bools; run; rewrite ?orb_false_r; reflexivity. }
    rewrite E. cbn [have_blank_line_].
    destruct text as [|a text]; cbn [empty front_is].
    + split; [intros H; right; split; [reflexivity | exact H]
             | intros [[H _] | [_ H]]; [congruence | exact H]].
    + split.
      * intros H. apply Ascii.eqb_eq in H. subst a. left. split; [discriminate|].
        now exists text.
      * intros [[_ [rest H]] | [H _]]; [|discriminate].
        injection H as -> _. apply Ascii.eqb_refl.
Qed.

(** C5.  For every text and every world, [PrintOnNewLine] does what the
    specification says: when locked with a pending status line, the line and
    a newline move into the output buffer and the pending line is cleared;
    when [have_blank_line_] is false one newline is emitted, buffered when
    locked; a non-empty text is then written raw, buffered when locked; and
    afterwards [have_blank_line_] holds exactly when the text is empty or
    ends with a newline. *)
Theorem PrintOnNewLine_correct (text : string) (w : World) :
  PrintOnNewLine text w
    = (tt, fst (Spec.PrintOnNewLine text w), snd (Spec.PrintOnNewLine text w))
  /\ (have_blank_line_ (world_after (PrintOnNewLine text) w) = true <->
      text = "" \/ exists init, text = init ++ nl).
Proof.
  destruct w as [sm col bl lk lb lt ob rm sp env cols].
  split.
  - destruct text as [|a text]; destruct lk; destruct bl; run; bools;
      destruct (empty lb); bools; run; cbn [app];
      rewrite ?append_assoc, ?append_nil_r; reflexivity.
  - assert (E : have_blank_line_ (world_after (PrintOnNewLine text)
                  (Build_World sm col bl lk lb lt ob rm sp env cols))
                = empty text || back_is LF text).
    { destruct text as [|a text]; destruct lk; destruct bl; run; bools;
        destruct (empty lb); bools; run; reflexivity. }
    rewrite E. rewrite orb_true_iff, empty_true_iff, back_is_true_iff. reflexivity.
Qed.


(** ** What each operation leaves alone *)

Lemma bind_pure {A B : Type} (m : M A) (k : A -> M B) (w w1 : World) (a : A) :
  m w = (a, w1, []) -> bind m k w = k a w1.
Proof.
  intros H. unfold bind. rewrite H.
  destruct (k a w1) as [[b w2] t2]. reflexivity.
Qed.

Lemma GetReformatMode_run (w : World) :
  GetReformatMode w
  = (value_of GetReformatMode w,
     set_reformat_mode_static (Some (value_of GetReformatMode w)) w, []).
Proof.
  destruct w as [sm col bl lk lb lt ob rm sp env cols].
  destruct rm as [m|]; reflexivity.
Qed.

Lemma GetStatusPrintMode_run (w : World) :
  GetStatusPrintMode w
  = (value_of GetStatusPrintMode w,
     set_status_print_mode_static (Some (value_of GetStatusPrintMode w)) w, []).
Proof.
  destruct w as [sm col bl lk lb lt ob rm sp env cols].
  destruct sp as [m|]; reflexivity.
Qed.

Lemma Print_locked (to_print : string) (type : LineType) (w : World) :
  console_locked_ w = true ->
  Print to_print type w
  = (tt,
     set_line_type_ type
       (set_line_buffer_ (reformatted w to_print)
          (set_reformat_mode_static (Some (value_of GetReformatMode w)) w)),
     []).
Proof.
  intros L. unfold Print.
  rewrite (bind_pure _ _ _ _ _ (GetReformatMode_run w)).
  unfold gets at 1. unfold bind at 1. cbn [console_locked_ set_reformat_mode_static].
  rewrite L. reflexivity.
Qed.

Lemma Print_unlocked (to_print : string) (type : LineType) (w : World) :
  console_locked_ w = false ->
  Print to_print type w
  = render (reformatted w to_print) type
      (set_reformat_mode_static (Some (value_of GetReformatMode w)) w).
Proof.
  intros L. unfold Print.
  rewrite (bind_pure _ _ _ _ _ (GetReformatMode_run w)).
  erewrite bind_pure by reflexivity.
  cbn [console_locked_ set_reformat_mode_static]. rewrite L. reflexivity.
Qed.


Lemma render_frame (text : string) (type : LineType) (w : World) :
  let w' := world_after (render text type) w in
  console_locked_ w' = console_locked_ w
  /\ line_buffer_ w' = line_buffer_ w
  /\ output_buffer_ w' = output_buffer_ w
  /\ line_type_ w' = line_type_ w
  /\ smart_terminal_ w' = smart_terminal_ w
  /\ reformat_mode_static w' = reformat_mode_static w.
Proof.
  destruct w as [sm col bl lk lb lt ob rm sp env cols].
  unfold render. run. repeat case_scrutinee; run; repeat split; reflexivity.
Qed.

Lemma PrintOrBuffer_locked (data : string) (w : World) :
  console_locked_ w = true ->
  PrintOrBuffer data w = (tt, set_output_buffer_ (output_buffer_ w ++ data) w, []).
Proof.
  destruct w as [sm col bl lk lb lt ob rm sp env cols]. cbn [console_locked_].
  intros ->. reflexivity.
Qed.

Lemma PrintWithoutNewLine_unlocked (text : string) (w : World) :
  console_locked_ w = false ->
  PrintWithoutNewLine text w
  = (tt,
     set_have_blank_line_ (if empty text then have_blank_line_ w else front_is LF text) w,
     if empty text then [] else [Write text]).
Proof.
  destruct w as [sm col bl lk lb lt ob rm sp env cols]. cbn [console_locked_].
  intros ->. destruct text as [|a text]; run; bools; rewrite ?orb_false_r; reflexivity.
Qed.

(** ** Locking and unlocking *)

Lemma SetConsoleLocked_same (w : World) :
  SetConsoleLocked (console_locked_ w) w = (tt, w, []).
Proof.
  destruct w as [sm col bl lk lb lt ob rm sp env cols].
  destruct lk; reflexivity.
Qed.

Lemma SetConsoleLocked_lock (w : World) :
  console_locked_ w = false ->
  SetConsoleLocked true w = (tt, set_console_locked_ true w, [Write erase_line; Flush]).
Proof.
  destruct w as [sm col bl lk lb lt ob rm sp env cols]. cbn [console_locked_].
  intros ->. reflexivity.
Qed.

(** Unlocking: the output buffer goes out through [PrintWithoutNewLine], a
    non-empty pending line through [Print], and both are cleared. *)
Lemma SetConsoleLocked_unlock (w : World) :
  console_locked_ w = true ->
  let w1 := set_have_blank_line_
              (if empty (output_buffer_ w) then have_blank_line_ w
               else front_is LF (output_buffer_ w))
              (set_console_locked_ false w) in
  let pending : M unit :=
    if empty (line_buffer_ w) then ret tt
    else Print (line_buffer_ w) (line_type_ w) in
  SetConsoleLocked false w
  = (tt,
     set_line_buffer_ "" (set_output_buffer_ "" (world_after pending w1)),
     ((if empty (output_buffer_ w) then [] else [Write (output_buffer_ w)])
      ++ trace_of pending w1)%list).
Proof.
  destruct w as [sm col bl lk lb lt ob rm sp env cols]. cbn [console_locked_].
  intros ->. cbn zeta. unfold SetConsoleLocked. step. cbn [Bool.eqb negb].
  rewrite PrintWithoutNewLine_unlocked by reflexivity. step.
  destruct (empty lb); cbn [negb].
  - destruct (empty ob); reflexivity.
  - match goal with
    | |- context [Print ?a ?b ?c] => destruct (Print a b c) as [[u w2] t2]
    end.
    destruct (empty ob); cbn [app]; rewrite ?app_nil_r; reflexivity.
Qed.


Lemma Print_frame (text : string) (type : LineType) (w : World) :
  let w' := world_after (Print text type) w in
  console_locked_ w' = console_locked_ w
  /\ output_buffer_ w' = output_buffer_ w
  /\ (console_locked_ w = false -> line_buffer_ w' = line_buffer_ w).
Proof.
  cbn zeta. destruct (console_locked_ w) eqn:L; unfold world_after.
  - rewrite (Print_locked _ _ _ L).
    destruct w as [sm col bl lk lb lt ob rm sp env cols].
    repeat split; try assumption. discriminate.
  - rewrite (Print_unlocked _ _ _ L).
    destruct (render_frame (reformatted w text) type
                (set_reformat_mode_static (Some (value_of GetReformatMode w)) w))
      as (H1 & H2 & H3 & _).
    unfold world_after in H1, H2, H3. rewrite H1, H2, H3.
    destruct w as [sm col bl lk lb lt ob rm sp env cols].
    repeat split; assumption.
Qed.

Lemma raw_frame (c : call) (w : World) :
  (forall b, c <> CSetConsoleLocked b) ->
  let w' := world_after (do_call c) w in
  console_locked_ w' = console_locked_ w
  /\ (console_locked_ w = false ->
      line_buffer_ w' = line_buffer_ w /\ output_buffer_ w' = output_buffer_ w).
Proof.
  intros N. cbn zeta. destruct c as [text type|text|text|data|b]; unfold do_call.
  - destruct (Print_frame text type w) as (H1 & H2 & H3). auto.
  - destruct w as [sm col bl lk lb lt ob rm sp env cols].
    destruct lk; crunch; split; try discriminate; auto.
  - destruct w as [sm col bl lk lb lt ob rm sp env cols].
    destruct lk; crunch; split; try discriminate; auto.
  - destruct w as [sm col bl lk lb lt ob rm sp env cols].
    destruct lk; run; split; try discriminate; auto.
  - now destruct (N b).
Qed.

Lemma reachable_idle (w : World) :
  reachable w ->
  console_locked_ w = false -> line_buffer_ w = "" /\ output_buffer_ w = "".
Proof.
  induction 1 as [isatty1 lt rm sp env cols | w c R IH | w env cols R IH].
  - intros _. split; reflexivity.
  - destruct c as [text type|text|text|data|b].
    1-4: match goal with
         | |- context [do_call ?c] =>
             destruct (raw_frame c w ltac:(discriminate)) as [L F]
         end;
         intros U; rewrite L in U; destruct (F U) as [-> ->]; exact (IH U).
    unfold do_call. destruct (Bool.eqb b (console_locked_ w)) eqn:E.
    + apply Bool.eqb_prop in E. subst b. unfold world_after.
      rewrite SetConsoleLocked_same. exact IH.
    + destruct b; destruct (console_locked_ w) eqn:L; try discriminate.
      * unfold world_after. rewrite (SetConsoleLocked_lock _ L).
        destruct w; discriminate.
      * intros _. unfold world_after at 1 2.
        rewrite (SetConsoleLocked_unlock _ L). split; reflexivity.
  - destruct w; exact IH.
Qed.

(** C6.  [SetConsoleLocked] called with the state the console is already in
    changes nothing and writes nothing.  From every reachable unlocked world,
    locking and unlocking at once writes nothing but the line-clear sequence
    of the lock, flushed, and gives back the very same world.  On a console
    that is locked already the first call is that no-op, so the pair is the
    unlock alone. *)
Theorem SetConsoleLocked_idempotent (w : World) :
  SetConsoleLocked (console_locked_ w) w = (tt, w, [])
  /\ (reachable w -> console_locked_ w = false ->
      (SetConsoleLocked true ;; SetConsoleLocked false) w
      = (tt, w, [Write erase_line; Flush]))
  /\ (console_locked_ w = true ->
      (SetConsoleLocked true ;; SetConsoleLocked false) w
      = SetConsoleLocked false w).
Proof.
  split; [apply SetConsoleLocked_same|]. split.
  - intros R L. destruct (reachable_idle w R L) as [LB OB].
    destruct w as [sm col bl lk lb lt ob rm sp env cols].
    cbn in L, LB, OB. subst. reflexivity.
  - intros L. pose proof (SetConsoleLocked_same w) as S. rewrite L in S.
    now rewrite (bind_pure _ _ _ _ _ S).
Qed.

(** C7.  From every reachable unlocked world, locking, then
    [PrintWithoutNewLine "child output"], then unlocking writes the line-clear
    sequence and flushes it at lock time, nothing during the locked call, and
    exactly the bytes "child output" at unlock, once. *)
Theorem child_output_scenario (w : World) :
  reachable w -> console_locked_ w = false ->
  let locked := world_after (SetConsoleLocked true) w in
  let written := world_after (PrintWithoutNewLine "child output") locked in
  trace_of (SetConsoleLocked true) w = [Write erase_line; Flush]
  /\ trace_of (PrintWithoutNewLine "child output") locked = []
  /\ trace_of (SetConsoleLocked false) written = [Write "child output"]
  /\ do_calls [CSetConsoleLocked true; CPrintWithoutNewLine "child output";
               CSetConsoleLocked false] w
     = (tt, set_have_blank_line_ false w,
        [Write erase_line; Flush; Write "child output"]).
Proof.
  intros R L. destruct (reachable_idle w R L) as [LB OB].
  destruct w as [sm col bl lk lb lt ob rm sp env cols].
  cbn in L, LB, OB. subst. repeat split; reflexivity.
Qed.


(** ** CustomFormat *)

Lemma rules_compile : Forall (fun rule => parse (fst rule) <> None) rules.
Proof. repeat constructor; vm_compute; discriminate. Qed.

Lemma CustomFormat_fold (input : string) :
  CustomFormat input = fold_left apply_rule rules input.
Proof. reflexivity. Qed.

Lemma CustomFormat_building_cxx :
  CustomFormat "Building CXX obj foo.cpp.o"
  = esc "[32mbuilding c++ obj " ++ esc "[34mfoo.cpp" ++ esc "[0m".
Proof. vm_compute. reflexivity. Qed.

Lemma GetStatusPrintMode_reformat_static (m : option e_reformat_mode) (w : World) :
  value_of GetStatusPrintMode (set_reformat_mode_static m w)
  = value_of GetStatusPrintMode w.
Proof.
  destruct w as [sm col bl lk lb lt ob rm sp env cols]. destruct sp; reflexivity.
Qed.

Lemma render_smart_elide (text : string) (w : World) (n : nat) :
  value_of GetStatusPrintMode w <> multiline ->
  smart_terminal_ w = true -> ws_col w = Some (S n) ->
  trace_of (render text ELIDE) w
  = [Write cr; Write (c_str (ElideMiddle text (S n))); Write clear_to_eol; Flush].
Proof.
  destruct w as [sm col bl lk lb lt ob rm sp env cols].
  cbn [smart_terminal_ ws_col]. intros M -> ->. revert M.
  unfold render. crunch; intros M; try reflexivity; exfalso; apply M; reflexivity.
Qed.

(** C8.  In pretty mode [Print] goes on with [CustomFormat] of its text:
    a locked printer keeps the formatted text as the pending line, an
    unlocked one renders it, and on a smart terminal the elision is applied
    to the formatted text.  The rules are applied in the order of the table,
    each to the result of the one before.  "Building CXX obj foo.cpp.o"
    becomes "building c++ obj foo.cpp" with colour sequences around its two
    parts. *)
Theorem Print_pretty_formats_first :
  (forall input, CustomFormat input = fold_left apply_rule rules input)
  /\ CustomFormat "Building CXX obj foo.cpp.o"
     = esc "[32mbuilding c++ obj " ++ esc "[34mfoo.cpp" ++ esc "[0m"
  /\ strip_ansi (CustomFormat "Building CXX obj foo.cpp.o") false
     = "building c++ obj foo.cpp"
  /\ (forall text type w,
        value_of GetReformatMode w = pretty ->
        (console_locked_ w = true ->
         line_buffer_ (world_after (Print text type) w) = CustomFormat text)
        /\ (console_locked_ w = false ->
            Print text type w
            = render (CustomFormat text) type
                (set_reformat_mode_static (Some pretty) w)))
  /\ (forall w n,
        value_of GetReformatMode w = pretty ->
        value_of GetStatusPrintMode w <> multiline ->
        console_locked_ w = false -> smart_terminal_ w = true ->
        ws_col w = Some (S n) ->
        trace_of (Print "Building CXX obj foo.cpp.o" ELIDE) w
        = [Write cr;
           Write (c_str (ElideMiddle
                           (esc "[32mbuilding c++ obj " ++ esc "[34mfoo.cpp" ++ esc "[0m")
                           (S n)));
           Write clear_to_eol; Flush]).
Proof.
  split; [exact CustomFormat_fold|].
  split; [exact CustomFormat_building_cxx|].
  split; [vm_compute; reflexivity|].
  split.
  - intros text type w P. split; intros L.
    + unfold world_after. rewrite (Print_locked _ _ _ L). unfold reformatted.
      rewrite P. reflexivity.
    + rewrite (Print_unlocked _ _ _ L). unfold reformatted. rewrite P. reflexivity.
  - intros w n P M L S C. unfold trace_of.
    rewrite (Print_unlocked _ _ _ L). unfold reformatted. rewrite P.
    rewrite CustomFormat_building_cxx.
    apply render_smart_elide.
    + now rewrite GetStatusPrintMode_reformat_static.
    + destruct w; exact S.
    + destruct w; exact C.
Qed.


(** ** The modes *)

Lemma render_multiline (text : string) (type : LineType) (w : World) :
  value_of GetStatusPrintMode w = multiline ->
  render text type w
  = (tt, set_status_print_mode_static (Some multiline) w, [Write (c_str text ++ nl)]).
Proof.
  destruct w as [sm col bl lk lb lt ob rm sp env cols].
  unfold render. crunch; intros M; try discriminate M; reflexivity.
Qed.

Lemma statics_kept_by_call (c : call) (w : World) :
  let w' := world_after (do_call c) w in
  (forall m, reformat_mode_static w = Some m -> reformat_mode_static w' = Some m)
  /\ (forall m, status_print_mode_static w = Some m ->
                status_print_mode_static w' = Some m).
Proof.
  destruct w as [sm col bl lk lb lt ob rm sp env cols].
  destruct c as [text type|text|text|data|b]; unfold do_call;
    crunch; split; intros m E; first [exact E | discriminate E].
Qed.

Lemma statics_kept (w w' : World) :
  evolves w w' ->
  (forall m, reformat_mode_static w = Some m -> reformat_mode_static w' = Some m)
  /\ (forall m, status_print_mode_static w = Some m ->
                status_print_mode_static w' = Some m).
Proof.
  induction 1 as [w | w w' c E [IH1 IH2] | w w' env cols E [IH1 IH2]].
  - split; auto.
  - destruct (statics_kept_by_call c w') as [K1 K2]. split; intros m H; auto.
  - destruct w'. split; intros m H; [exact (IH1 m H) | exact (IH2 m H)].
Qed.


Lemma GetReformatMode_cached (w : World) (m : e_reformat_mode) :
  reformat_mode_static w = Some m -> value_of GetReformatMode w = m.
Proof.
  destruct w as [sm col bl lk lb lt ob rm sp env cols]. cbn [reformat_mode_static].
  intros ->. reflexivity.
Qed.

Lemma GetStatusPrintMode_cached (w : World) (m : e_status_print_mode) :
  status_print_mode_static w = Some m -> value_of GetStatusPrintMode w = m.
Proof.
  destruct w as [sm col bl lk lb lt ob rm sp env cols].
  cbn [status_print_mode_static]. intros ->. reflexivity.
Qed.

(** C9, as the code has it.  The first call of [GetReformatMode] yields
    pretty exactly when the variable is set to "pretty" and none otherwise;
    the first call of [GetStatusPrintMode] yields multiline exactly for
    "multiline", scrolling exactly for "scrolling" and singleline otherwise.
    Both values are kept for the rest of the run, whatever is called and
    however the environment changes.  In multiline mode an unlocked [Print]
    does one write and nothing else: the text, as [printf] renders a C
    string, that is up to its first NUL byte, followed by a newline; a text
    without NUL bytes is written whole. *)
Theorem modes_and_multiline :
  (forall w, reformat_mode_static w = None ->
     (value_of GetReformatMode w = pretty
      <-> environ w "DSICILIA_NINJA_REFORMAT_MODE" = Some "pretty")
     /\ (value_of GetReformatMode w = none
         <-> environ w "DSICILIA_NINJA_REFORMAT_MODE" <> Some "pretty"))
  /\ (forall w, status_print_mode_static w = None ->
     (value_of GetStatusPrintMode w = multiline
      <-> environ w "DSICILIA_NINJA_STATUS_PRINT_MODE" = Some "multiline")
     /\ (value_of GetStatusPrintMode w = scrolling
         <-> environ w "DSICILIA_NINJA_STATUS_PRINT_MODE" = Some "scrolling")
     /\ (value_of GetStatusPrintMode w = singleline
         <-> environ w "DSICILIA_NINJA_STATUS_PRINT_MODE" <> Some "multiline"
             /\ environ w "DSICILIA_NINJA_STATUS_PRINT_MODE" <> Some "scrolling"))
  /\ (forall w w', evolves (world_after GetReformatMode w) w' ->
        value_of GetReformatMode w' = value_of GetReformatMode w)
  /\ (forall w w', evolves (world_after GetStatusPrintMode w) w' ->
        value_of GetStatusPrintMode w' = value_of GetStatusPrintMode w)
  /\ (forall text type w,
        value_of GetStatusPrintMode w = multiline -> console_locked_ w = false ->
        Print text type w
        = (tt,
           set_status_print_mode_static (Some multiline)
             (set_reformat_mode_static (Some (value_of GetReformatMode w)) w),
           [Write (c_str (reformatted w text) ++ nl)])
        /\ (nul_free (reformatted w text) = true ->
            trace_of (Print text type) w = [Write (reformatted w text ++ nl)])).
Proof.
  split; [|split; [|split; [|split]]].
  - intros [sm col bl lk lb lt ob rm sp env cols]. cbn [reformat_mode_static environ].
    intros ->. unfold value_of, GetReformatMode. step.
    destruct (env "DSICILIA_NINJA_REFORMAT_MODE") as [v|].
    + destruct (String.eqb_spec v "pretty") as [->|N]; split; split;
        congruence.
    + split; split; congruence.
  - intros [sm col bl lk lb lt ob rm sp env cols].
    cbn [status_print_mode_static environ].
    intros ->. unfold value_of, GetStatusPrintMode. step.
    destruct (env "DSICILIA_NINJA_STATUS_PRINT_MODE") as [v|].
    + destruct (String.eqb_spec v "multiline") as [->|N1].
      * repeat split; try congruence. intros [H _]. congruence.
      * destruct (String.eqb_spec v "scrolling") as [->|N2].
        -- repeat split; try congruence. intros [_ H]. congruence.
        -- repeat split; congruence.
    + repeat split; congruence.
  - intros w w' E. apply GetReformatMode_cached.
    apply (proj1 (statics_kept _ _ E)).
    unfold world_after. rewrite GetReformatMode_run. destruct w; reflexivity.
  - intros w w' E. apply GetStatusPrintMode_cached.
    apply (proj2 (statics_kept _ _ E)).
    unfold world_after. rewrite GetStatusPrintMode_run. destruct w; reflexivity.
  - intros text type w M L.
    assert (P : Print text type w
      = (tt,
         set_status_print_mode_static (Some multiline)
           (set_reformat_mode_static (Some (value_of GetReformatMode w)) w),
         [Write (c_str (reformatted w text) ++ nl)])).
    { rewrite (Print_unlocked _ _ _ L). apply render_multiline.
      now rewrite GetStatusPrintMode_reformat_static. }
    split; [exact P|].
    intros F. unfold trace_of. rewrite P. cbn [snd].
    now rewrite (c_str_nul_free _ F).
Qed.

(** ** Print while locked *)

Lemma Print_locked_twice (t1 t2 : string) (ty1 ty2 : LineType) (w : World) :
  console_locked_ w = true ->
  Print t2 ty2 (world_after (Print t1 ty1) w) = Print t2 ty2 w.
Proof.
  intros L. unfold world_after. rewrite (Print_locked t1 ty1 w L). cbn [fst snd].
  rewrite (Print_locked t2 ty2 w L).
  rewrite Print_locked by (destruct w; exact L).
  destruct w as [sm col bl lk lb lt ob rm sp env cols].
  unfold reformatted. destruct rm as [m|]; reflexivity.
Qed.

Lemma locked_Prints_collapse (earlier : list (string * LineType))
  (text : string) (type : LineType) (w : World) :
  console_locked_ w = true ->
  do_calls (map (fun p => CPrint (fst p) (snd p)) earlier ++ [CPrint text type]) w
  = (tt, world_after (Print text type) w, []).
Proof.
  revert w. induction earlier as [|[t ty] earlier IH]; intros w L.
  - cbn [map app]. change (do_calls [?c]) with (do_call c ;; ret tt).
    unfold do_call. rewrite (bind_pure _ _ _ _ _ (Print_locked _ _ _ L)).
    unfold world_after. rewrite (Print_locked _ _ _ L). reflexivity.
  - cbn [map app fst snd]. change (do_calls (?c :: ?cs)) with (do_call c ;; do_calls cs).
    unfold do_call at 1.
    rewrite (bind_pure _ _ _ _ _ (Print_locked t ty w L)).
    rewrite IH by (destruct w; exact L).
    pose proof (Print_locked_twice t text ty type w L) as T.
    unfold world_after in T at 1. rewrite (Print_locked t ty w L) in T. cbn [fst snd] in T.
    unfold world_after. rewrite T. reflexivity.
Qed.

(** C10, as the code has it.  After any number of [Print] calls on a locked
    console the world is the one the last call alone would have left: its
    text, reformatted, and its kind are the pending line, and nothing was
    written.  Unlocking then writes the output buffer and renders that one
    line through [Print], provided the line is not empty; an empty pending
    line is not rendered at all. *)
Theorem last_locked_Print_wins (earlier : list (string * LineType))
  (text : string) (type : LineType) (w : World) :
  console_locked_ w = true ->
  let w' := world_after (Print text type) w in
  let w1 := set_have_blank_line_
              (if empty (output_buffer_ w) then have_blank_line_ w
               else front_is LF (output_buffer_ w))
              (set_console_locked_ false w') in
  do_calls (map (fun p => CPrint (fst p) (snd p)) earlier ++ [CPrint text type]) w
  = (tt, w', [])
  /\ line_buffer_ w' = reformatted w text
  /\ line_type_ w' = type
  /\ output_buffer_ w' = output_buffer_ w
  /\ trace_of (SetConsoleLocked false) w'
     = ((if empty (output_buffer_ w) then [] else [Write (output_buffer_ w)])
        ++ (if empty (reformatted w text) then []
            else trace_of (Print (reformatted w text) type) w1))%list.
Proof.
  intros L. cbn zeta.
  split; [exact (locked_Prints_collapse earlier text type w L)|].
  unfold world_after. rewrite (Print_locked _ _ _ L). cbn [fst snd].
  destruct w as [sm col bl lk lb lt ob rm sp env cols]. cbn in L. subst lk.
  repeat split.
  unfold trace_of at 1. rewrite SetConsoleLocked_unlock by reflexivity.
  cbn [snd line_buffer_ line_type_ output_buffer_ have_blank_line_
       set_line_type_ set_line_buffer_ set_reformat_mode_static].
  destruct (empty (reformatted _ text)); reflexivity.
Qed.


(** ** Output while locked *)

Lemma in_order_prepend (texts : list string) (a s : string) :
  in_order texts s -> in_order texts (a ++ s).
Proof.
  destruct texts as [|t ts]; [trivial|].
  intros (before & after & -> & H). exists (a ++ before), after.
  split; [now rewrite append_assoc | exact H].
Qed.

Lemma in_order_append (l1 l2 : list string) (a b : string) :
  in_order l1 a -> in_order l2 b -> in_order (l1 ++ l2) (a ++ b).
Proof.
  revert a. induction l1 as [|t ts IH]; intros a H1 H2.
  - now apply in_order_prepend.
  - destruct H1 as (before & after & -> & H). exists before, (after ++ b).
    split; [now rewrite !append_assoc | now apply IH].
Qed.

Lemma in_order_single (before t : string) : in_order [t] (before ++ t).
Proof. exists before, "". now rewrite append_nil_r. Qed.

Lemma PrintWithoutNewLine_locked (text : string) (w : World) :
  console_locked_ w = true ->
  PrintWithoutNewLine text w
  = (tt,
     set_have_blank_line_
       (if empty text then have_blank_line_ w else front_is LF text)
       (set_output_buffer_
          (output_buffer_ w
           ++ (if empty (line_buffer_ w) then "" else line_buffer_ w ++ nl) ++ text)
          (set_line_buffer_ "" w)),
     []).
Proof.
  destruct w as [sm col bl lk lb lt ob rm sp env cols]. cbn [console_locked_].
  intros ->. destruct text as [|a text]; destruct lb as [|b lb]; crunch;
    rewrite ?append_assoc, ?append_nil_r, ?orb_false_r; reflexivity.
Qed.

Lemma PrintOnNewLine_locked (text : string) (w : World) :
  console_locked_ w = true ->
  PrintOnNewLine text w
  = (tt,
     set_have_blank_line_ (empty text || back_is LF text)
       (set_output_buffer_
          (output_buffer_ w
           ++ ((if empty (line_buffer_ w) then "" else line_buffer_ w ++ nl)
               ++ (if have_blank_line_ w then "" else nl)) ++ text)
          (set_line_buffer_ "" w)),
     []).
Proof.
  destruct w as [sm col bl lk lb lt ob rm sp env cols]. cbn [console_locked_].
  intros ->. destruct text as [|a text]; destruct lb as [|b lb]; destruct bl; crunch;
    rewrite ?append_assoc, ?append_nil_r; reflexivity.
Qed.

Lemma locked_call (c : call) (w : World) :
  console_locked_ w = true -> keeps_locked c = true ->
  exists w' added,
    do_call c w = (tt, w', [])
    /\ console_locked_ w' = true
    /\ output_buffer_ w' = output_buffer_ w ++ added
    /\ in_order (raw_text c) added.
Proof.
  intros L O. destruct c as [text type|text|text|data|b];
    unfold do_call, raw_text.
  - eexists. exists "". rewrite (Print_locked _ _ _ L).
    destruct w; cbn in L; subst. repeat split. cbn. now rewrite append_nil_r.
  - eexists. eexists. rewrite (PrintWithoutNewLine_locked _ _ L).
    destruct w; cbn in L; subst.
    split; [reflexivity|]. split; [reflexivity|]. split; [reflexivity|].
    apply in_order_single.
  - eexists. eexists. rewrite (PrintOnNewLine_locked _ _ L).
    destruct w; cbn in L; subst.
    split; [reflexivity|]. split; [reflexivity|]. split; [reflexivity|].
    apply in_order_single.
  - eexists. exists data. rewrite (PrintOrBuffer_locked _ _ L).
    destruct w; cbn in L; subst. repeat split. apply (in_order_single "").
  - destruct b; [|discriminate O]. exists w, "".
    pose proof (SetConsoleLocked_same w) as S. rewrite L in S.
    repeat split; [exact S | exact L | now rewrite append_nil_r].
Qed.

Lemma locked_calls (cs : list call) (w : World) :
  console_locked_ w = true -> forallb keeps_locked cs = true ->
  exists w' added,
    do_calls cs w = (tt, w', [])
    /\ console_locked_ w' = true
    /\ output_buffer_ w' = output_buffer_ w ++ added
    /\ in_order (raw_texts cs) added.
Proof.
  revert w. induction cs as [|c cs IH]; intros w L O.
  - exists w, "". repeat split; [exact L | now rewrite append_nil_r].
  - cbn [forallb] in O. apply andb_prop in O. destruct O as [Oc Ocs].
    destruct (locked_call c w L Oc) as (w1 & a1 & E1 & L1 & B1 & I1).
    destruct (IH w1 L1 Ocs) as (w2 & a2 & E2 & L2 & B2 & I2).
    exists w2, (a1 ++ a2).
    change (do_calls (c :: cs)) with (do_call c ;; do_calls cs).
    rewrite (bind_pure _ _ _ _ _ E1). repeat split; try assumption.
    + rewrite B2, B1. apply append_assoc.
    + unfold raw_texts. cbn [flat_map]. now apply in_order_append.
Qed.

Lemma stdout_bytes_app (t1 t2 : list event) :
  stdout_bytes (t1 ++ t2) = stdout_bytes t1 ++ stdout_bytes t2.
Proof.
  induction t1 as [|[b|] t1 IH]; cbn [app stdout_bytes]; try assumption.
  - reflexivity.
  - now rewrite IH, append_assoc.
Qed.

(** ** The blank-line flag *)

Lemma back_is_append (c : ascii) (a b : string) :
  b <> "" -> back_is c (a ++ b) = back_is c b.
Proof.
  intros N. induction a as [|x a IH]; [reflexivity|].
  cbn [append]. rewrite back_is_cons; [exact IH|].
  destruct a; [exact N | discriminate].
Qed.

Lemma render_flag (text : string) (type : LineType) (w : World) :
  have_blank_line_ (world_after (render text type) w)
  = back_is LF (stdout_bytes (trace_of (render text type) w)) && have_blank_line_ w.
Proof.
  destruct w as [sm col bl lk lb lt ob rm sp env cols].
  unfold render. crunch; cbn [app stdout_bytes];
    rewrite ?append_nil_r; rewrite <- ?append_assoc;
    rewrite back_is_append by discriminate; reflexivity.
Qed.

(** C3, as the code has it.  [PrintOnNewLine] leaves [have_blank_line_] true
    exactly when its text is empty or ends with a newline.  Of two
    consecutive calls [PrintOnNewLine ""], the first emits one newline when
    the flag is false and nothing otherwise (into the output buffer when
    locked), and the second emits nothing and changes nothing.  An unlocked
    [Print] that ends its output with a newline leaves the flag true when it
    was true before the call, and one that ends its output otherwise, the
    elided status line, leaves the flag false. *)
Theorem blank_line_flag :
  (forall text w,
     have_blank_line_ (world_after (PrintOnNewLine text) w) = true
     <-> text = "" \/ exists init, text = init ++ nl)
  /\ (forall w,
        let w1 := world_after (PrintOnNewLine "") w in
        PrintOnNewLine "" w1 = (tt, w1, [])
        /\ trace_of (PrintOnNewLine "") w
           = (if console_locked_ w || have_blank_line_ w then [] else [Write nl])
        /\ output_buffer_ w1
           = output_buffer_ (Spec.flush_pending w)
             ++ (if console_locked_ w && negb (have_blank_line_ w) then nl else ""))
  /\ (forall text type w,
        console_locked_ w = false ->
        let w' := world_after (Print text type) w in
        let out := stdout_bytes (trace_of (Print text type) w) in
        (back_is LF out = true -> have_blank_line_ w = true ->
         have_blank_line_ w' = true)
        /\ (back_is LF out = false -> have_blank_line_ w' = false)).
Proof.
  split; [|split].
  - intros text [sm col bl lk lb lt ob rm sp env cols].
    assert (E : have_blank_line_ (world_after (PrintOnNewLine text)
                  (Build_World sm col bl lk lb lt ob rm sp env cols))
                = empty text || back_is LF text).
    { destruct text as [|a text]; destruct lk; destruct bl; run; bools;
        destruct (empty lb); bools; run; reflexivity. }
    rewrite E. rewrite orb_true_iff, empty_true_iff, back_is_true_iff. reflexivity.
  - intros [sm col bl lk lb lt ob rm sp env cols]. cbn zeta.
    destruct lk; destruct bl; destruct lb as [|b lb]; crunch;
      rewrite ?append_nil_r, ?append_assoc; repeat split.
  - intros text type w L. cbn zeta.
    assert (F : have_blank_line_ (world_after (Print text type) w)
                = back_is LF (stdout_bytes (trace_of (Print text type) w))
                  && have_blank_line_ w).
    { unfold world_after, trace_of. rewrite (Print_unlocked _ _ _ L).
      pose proof (render_flag (reformatted w text) type
                    (set_reformat_mode_static (Some (value_of GetReformatMode w)) w)) as F.
      unfold world_after, trace_of in F. rewrite F. destruct w; reflexivity. }
    rewrite F. split.
    + intros -> ->. reflexivity.
    + intros ->. reflexivity.
Qed.

(** * Further properties of the printer *)

(** ** The constructor and the terminal state *)

(** X1.  The constructor takes the terminal for smart exactly when standard
    output is a tty and TERM is set to something other than "dumb"; colour is
    supported exactly on a smart terminal or when CLICOLOR_FORCE is set to
    something other than "0".  The printer starts unlocked, on a blank line,
    with both buffers empty. *)
Theorem LinePrinter_new_terminal (isatty1 : bool) (lt : LineType)
  (rm : option e_reformat_mode) (sp : option e_status_print_mode)
  (env : string -> option string) (cols : option nat) :
  let w := LinePrinter_new isatty1 lt rm sp env cols in
  (smart_terminal_ w = true
   <-> isatty1 = true /\ exists t, env "TERM" = Some t /\ t <> "dumb")
  /\ (supports_color_ w = true
      <-> smart_terminal_ w = true
          \/ exists v, env "CLICOLOR_FORCE" = Some v /\ v <> "0")
  /\ have_blank_line_ w = true /\ console_locked_ w = false
  /\ line_buffer_ w = "" /\ output_buffer_ w = "".
Proof.
  cbn zeta. unfold LinePrinter_new.
  cbn [smart_terminal_ supports_color_ have_blank_line_ console_locked_
       line_buffer_ output_buffer_].
  assert (S : isatty1 && match env "TERM" with
                         | Some t => negb (String.eqb t "dumb")
                         | None => false
                         end = true
              <-> isatty1 = true /\ exists t, env "TERM" = Some t /\ t <> "dumb").
  { destruct isatty1; cbn [andb].
    - destruct (env "TERM") as [t|].
      + destruct (String.eqb_spec t "dumb") as [->|N]; cbn [negb]; split.
        * discriminate.
        * intros (_ & t & E & N). congruence.
        * intros _. split; [reflexivity|]. now exists t.
        * reflexivity.
      + split; [discriminate|]. intros (_ & t & E & _). discriminate.
    - split; [discriminate|]. intros [E _]. discriminate. }
  split; [exact S|]. split; [|repeat split].
  destruct (isatty1 && _) eqn:Sm.
  - split; auto.
  - destruct (env "CLICOLOR_FORCE") as [v|].
    + destruct (String.eqb_spec v "0") as [->|N]; cbn [negb]; split.
      * discriminate.
      * intros [E | (v & E & N)]; [discriminate | congruence].
      * intros _. right. now exists v.
      * reflexivity.
    + split; [discriminate|]. intros [E | (v & E & _)]; discriminate.
Qed.

Lemma terminal_kept_by_call (c : call) (w : World) :
  let w' := world_after (do_call c) w in
  smart_terminal_ w' = smart_terminal_ w /\ supports_color_ w' = supports_color_ w.
Proof.
  destruct w as [sm col bl lk lb lt ob rm sp env cols].
  destruct c as [text type|text|text|data|b]; unfold do_call;
    crunch; split; reflexivity.
Qed.

(** X2.  No call changes what the constructor found out about the terminal:
    [smart_terminal_] and [supports_color_] stay as they are through every
    sequence of calls and changes of the surroundings, and in every
    reachable world a smart terminal supports colour. *)
Theorem terminal_state_is_fixed :
  (forall w w', evolves w w' ->
     smart_terminal_ w' = smart_terminal_ w /\ supports_color_ w' = supports_color_ w)
  /\ (forall w, reachable w -> smart_terminal_ w = true -> supports_color_ w = true).
Proof.
  split.
  - induction 1 as [w | w w' c E [IH1 IH2] | w w' env cols E [IH1 IH2]].
    + split; reflexivity.
    + destruct (terminal_kept_by_call c w') as [K1 K2]. cbn zeta in K1, K2.
      rewrite K1, K2. split; assumption.
    + destruct w'. split; assumption.
  - induction 1 as [isatty1 lt rm sp env cols | w c R IH | w env cols R IH].
    + unfold LinePrinter_new. cbn [smart_terminal_ supports_color_].
      intros ->. reflexivity.
    + destruct (terminal_kept_by_call c w) as [K1 K2]. cbn zeta in K1, K2.
      rewrite K1, K2. exact IH.
    + destruct w. exact IH.
Qed.

(** X3.  [supports_color_] is computed and never consulted: with the flag
    set either way every call writes the same trace and leaves the same
    world, the flag apart.  The colour sequences of [CustomFormat] do not
    depend on it. *)
Theorem supports_color_is_not_consulted (c : call) (b : bool) (w : World) :
  do_call c (set_supports_color_ b w)
  = (tt, set_supports_color_ b (world_after (do_call c) w), trace_of (do_call c) w).
Proof.
  destruct w as [sm col bl lk lb lt ob rm sp env cols].
  destruct c as [text type|text|text|data|l]; unfold do_call, set_supports_color_;
    crunch; reflexivity.
Qed.

(** X4.  [TerminalColumns] writes nothing and changes nothing; it answers
    the width of the window when the query succeeds with a width other than
    zero and the default otherwise, so with a positive default the answer is
    positive. *)
Theorem TerminalColumns_answer (def : nat) (w : World) :
  let n := value_of (TerminalColumns def) w in
  TerminalColumns def w = (n, w, [])
  /\ (forall k, ws_col w = Some (S k) -> n = S k)
  /\ (ws_col w = None \/ ws_col w = Some 0 -> n = def)
  /\ (0 < def -> 0 < n).
Proof.
  destruct w as [sm col bl lk lb lt ob rm sp env cols]. cbn zeta.
  unfold value_of, TerminalColumns. step.
  destruct cols as [[|k]|]; cbn [fst snd].
  - repeat split; [discriminate | trivial].
  - repeat split.
    + intros k' E. now injection E as ->.
    + intros [E|E]; discriminate.
    + intros _. lia.
  - repeat split; [discriminate | trivial].
Qed.

(** ** Locking *)

(** X8.  After [SetConsoleLocked b] the console is in state [b], whatever
    the world was, and a second call with the same argument does nothing:
    the pair leaves the world and the trace of the first call alone. *)
Theorem SetConsoleLocked_settles (b : bool) (w : World) :
  console_locked_ (world_after (SetConsoleLocked b) w) = b
  /\ (SetConsoleLocked b ;; SetConsoleLocked b) w = SetConsoleLocked b w.
Proof.
  assert (P : console_locked_ (world_after (SetConsoleLocked b) w) = b).
  { destruct (Bool.eqb b (console_locked_ w)) eqn:E.
    - apply Bool.eqb_prop in E. subst b. unfold world_after.
      now rewrite SetConsoleLocked_same.
    - destruct b; destruct (console_locked_ w) eqn:L; try discriminate.
      + unfold world_after. rewrite (SetConsoleLocked_lock _ L). now destruct w.
      + unfold world_after. rewrite (SetConsoleLocked_unlock _ L). cbn [fst snd].
        match goal with
        | |- context [world_after ?p ?w1] =>
            assert (K : console_locked_ (world_after p w1) = false)
        end.
        { destruct (empty (line_buffer_ w)).
          - destruct w; reflexivity.
          - match goal with
            | |- context [world_after (Print ?t ?ty) ?w1] =>
                destruct (Print_frame t ty w1) as (H & _)
            end.
            cbn zeta in H. rewrite H. now destruct w. }
        destruct (world_after _ _). exact K. }
  split; [exact P|].
  unfold world_after in P.
  destruct (SetConsoleLocked b w) as [[[] w'] t] eqn:E. cbn [fst snd] in P.
  unfold bind. rewrite E.
  pose proof (SetConsoleLocked_same w') as S. rewrite P in S. rewrite S.
  now rewrite app_nil_r.
Qed.

(** ** Status lines *)

Lemma bind_unit (m k : M unit) (w : World) :
  bind m (fun _ => k) w
  = (tt, world_after k (world_after m w),
     (trace_of m w ++ trace_of k (world_after m w))%list).
Proof.
  unfold bind, world_after, trace_of.
  destruct (m w) as [[[] w1] t1]. cbn [fst snd].
  destruct (k w1) as [[[] w2] t2]. reflexivity.
Qed.

Lemma do_calls_cons (c : call) (cs : list call) (w : World) :
  do_calls (c :: cs) w
  = (tt, world_after (do_calls cs) (world_after (do_call c) w),
     (trace_of (do_call c) w
      ++ trace_of (do_calls cs) (world_after (do_call c) w))%list).
Proof.
  change (do_calls (c :: cs)) with (do_call c ;; do_calls cs). apply bind_unit.
Qed.

Lemma trace_of_cons (c : call) (cs : list call) (w : World) :
  trace_of (do_calls (c :: cs)) w
  = (trace_of (do_call c) w ++ trace_of (do_calls cs) (world_after (do_call c) w))%list.
Proof. unfold trace_of at 1. now rewrite do_calls_cons. Qed.

Lemma world_after_cons (c : call) (cs : list call) (w : World) :
  world_after (do_calls (c :: cs)) w
  = world_after (do_calls cs) (world_after (do_call c) w).
Proof. unfold world_after at 1. now rewrite do_calls_cons. Qed.

(** The world an unlocked [Print] leaves: both modes cached, the flag as
    given. *)
Lemma cached_world (b : bool) (w : World) :
  let w1 := set_have_blank_line_ b
              (set_status_print_mode_static (Some (value_of GetStatusPrintMode w))
                 (set_reformat_mode_static (Some (value_of GetReformatMode w)) w)) in
  console_locked_ w1 = console_locked_ w
  /\ smart_terminal_ w1 = smart_terminal_ w
  /\ ws_col w1 = ws_col w
  /\ value_of GetStatusPrintMode w1 = value_of GetStatusPrintMode w
  /\ (forall t, reformatted w1 t = reformatted w t)
  /\ have_blank_line_ w1 = b.
Proof.
  destruct w as [sm col bl lk lb lt ob rm sp env cols].
  destruct rm; destruct sp; repeat split; reflexivity.
Qed.

Lemma render_plain (text : string) (type : LineType) (w : World) :
  value_of GetStatusPrintMode w = multiline \/ smart_terminal_ w = false ->
  render text type w
  = (tt,
     set_have_blank_line_ (have_blank_line_ w)
       (set_status_print_mode_static (Some (value_of GetStatusPrintMode w)) w),
     [Write (c_str text ++ nl)]).
Proof.
  destruct w as [sm col bl lk lb lt ob rm sp env cols].
  unfold render. crunch; intros [H|H]; try discriminate H; reflexivity.
Qed.

Lemma render_smart (text : string) (type : LineType) (w : World) :
  value_of GetStatusPrintMode w <> multiline -> smart_terminal_ w = true ->
  render text type w
  = (tt,
     set_have_blank_line_ (have_blank_line_ w && LineType_eqb type FULL)
       (set_status_print_mode_static (Some (value_of GetStatusPrintMode w)) w),
     smart_output (ws_col w) text type).
Proof.
  destruct w as [sm col bl lk lb lt ob rm sp env cols].
  destruct type; unfold render, smart_output; crunch; intros M S;
    try discriminate S; rewrite ?andb_false_r, ?andb_true_r; try reflexivity;
    exfalso; apply M; reflexivity.
Qed.

Lemma Print_plain (text : string) (type : LineType) (w : World) :
  console_locked_ w = false ->
  value_of GetStatusPrintMode w = multiline \/ smart_terminal_ w = false ->
  Print text type w
  = (tt,
     set_have_blank_line_ (have_blank_line_ w)
       (set_status_print_mode_static (Some (value_of GetStatusPrintMode w))
          (set_reformat_mode_static (Some (value_of GetReformatMode w)) w)),
     [Write (c_str (reformatted w text) ++ nl)]).
Proof.
  intros L P. rewrite (Print_unlocked _ _ _ L). rewrite render_plain.
  - rewrite GetStatusPrintMode_reformat_static. destruct w; reflexivity.
  - rewrite GetStatusPrintMode_reformat_static. destruct w; exact P.
Qed.

Lemma Print_smart (text : string) (type : LineType) (w : World) :
  console_locked_ w = false ->
  value_of GetStatusPrintMode w <> multiline -> smart_terminal_ w = true ->
  Print text type w
  = (tt,
     set_have_blank_line_ (have_blank_line_ w && LineType_eqb type FULL)
       (set_status_print_mode_static (Some (value_of GetStatusPrintMode w))
          (set_reformat_mode_static (Some (value_of GetReformatMode w)) w)),
     smart_output (ws_col w) (reformatted w text) type).
Proof.
  intros L M S. rewrite (Print_unlocked _ _ _ L). rewrite render_smart.
  - rewrite GetStatusPrintMode_reformat_static. destruct w; reflexivity.
  - now rewrite GetStatusPrintMode_reformat_static.
  - destruct w; exact S.
Qed.

(** X5.  Where the status line cannot or shall not be overwritten, that is
    in multiline mode or on a terminal that is not smart, an unlocked printer
    writes one line per [Print], in the order of the calls: the text, as
    [printf] renders it, and a newline, whatever the kind of the line, with
    no carriage return, no clear-line sequence and no flush; the blank-line
    flag stays as it was. *)
Theorem Print_plain_lines (ps : list (string * LineType)) (w : World) :
  console_locked_ w = false ->
  value_of GetStatusPrintMode w = multiline \/ smart_terminal_ w = false ->
  let w' := world_after (do_calls (map print_call ps)) w in
  trace_of (do_calls (map print_call ps)) w
  = map (fun p => Write (c_str (reformatted w (fst p)) ++ nl)) ps
  /\ have_blank_line_ w' = have_blank_line_ w
  /\ console_locked_ w' = false.
Proof.
  revert w. induction ps as [|[text type] ps IH]; intros w L P; cbn zeta.
  - repeat split. exact L.
  - cbn [map]. rewrite trace_of_cons, world_after_cons.
    change (print_call (text, type)) with (CPrint text type).
    assert (W : world_after (do_call (CPrint text type)) w
                = set_have_blank_line_ (have_blank_line_ w)
                    (set_status_print_mode_static (Some (value_of GetStatusPrintMode w))
                       (set_reformat_mode_static (Some (value_of GetReformatMode w)) w)))
      by (unfold do_call, world_after; now rewrite (Print_plain text type w L P)).
    assert (T : trace_of (do_call (CPrint text type)) w
                = [Write (c_str (reformatted w text) ++ nl)])
      by (unfold do_call, trace_of; now rewrite (Print_plain text type w L P)).
    rewrite W, T.
    destruct (cached_world (have_blank_line_ w) w) as (C1 & C2 & C3 & C4 & C5 & C6).
    cbn zeta in C1, C2, C3, C4, C5, C6.
    set (w1 := set_have_blank_line_ _ _) in *.
    destruct (IH w1) as (T1 & B & K).
    + now rewrite C1.
    + rewrite C4, C2. exact P.
    + cbn zeta in T1, B, K. rewrite T1, B, K, C6.
      split; [|split; reflexivity].
      reflexivity.
Qed.

(** X6.  On a smart terminal outside multiline mode every unlocked [Print]
    starts with a carriage return.  A status line ([ELIDE]) is then written
    cut to the window width if the width is known and not zero, followed by
    the clear-to-end-of-line sequence and a flush, with no newline of its
    own, so the next line overwrites it; a [FULL] line is written whole with
    a newline.  The blank-line flag ends up true only if it was true and no
    status line was among the calls. *)
Theorem Print_smart_lines (ps : list (string * LineType)) (w : World) :
  console_locked_ w = false ->
  value_of GetStatusPrintMode w <> multiline -> smart_terminal_ w = true ->
  let w' := world_after (do_calls (map print_call ps)) w in
  trace_of (do_calls (map print_call ps)) w
  = flat_map (fun p => smart_output (ws_col w) (reformatted w (fst p)) (snd p)) ps
  /\ have_blank_line_ w' = have_blank_line_ w && forallb is_full ps
  /\ console_locked_ w' = false.
Proof.
  revert w. induction ps as [|[text type] ps IH]; intros w L M S; cbn zeta.
  - repeat split; [now rewrite andb_true_r | exact L].
  - cbn [map]. rewrite trace_of_cons, world_after_cons.
    change (print_call (text, type)) with (CPrint text type).
    assert (W : world_after (do_call (CPrint text type)) w
                = set_have_blank_line_ (have_blank_line_ w && LineType_eqb type FULL)
                    (set_status_print_mode_static (Some (value_of GetStatusPrintMode w))
                       (set_reformat_mode_static (Some (value_of GetReformatMode w)) w)))
      by (unfold do_call, world_after; now rewrite (Print_smart text type w L M S)).
    assert (T : trace_of (do_call (CPrint text type)) w
                = smart_output (ws_col w) (reformatted w text) type)
      by (unfold do_call, trace_of; now rewrite (Print_smart text type w L M S)).
    rewrite W, T.
    destruct (cached_world (have_blank_line_ w && LineType_eqb type FULL) w)
      as (C1 & C2 & C3 & C4 & C5 & C6).
    cbn zeta in C1, C2, C3, C4, C5, C6.
    set (w1 := set_have_blank_line_ _ _) in *.
    destruct (IH w1) as (T1 & B & K).
    + now rewrite C1.
    + now rewrite C4.
    + now rewrite C2.
    + cbn zeta in T1, B, K. rewrite T1, B, K, C6, C3.
      split; [|split; [|reflexivity]].
      * reflexivity.
      * cbn [forallb]. unfold is_full at 2. cbn [snd]. now rewrite andb_assoc.
Qed.

Lemma scrolling_call (c : call) (w : World) :
  status_print_mode_static w = Some singleline ->
  do_call c (set_status_print_mode_static (Some scrolling) w)
  = (tt, set_status_print_mode_static (Some scrolling) (world_after (do_call c) w),
     trace_of (do_call c) w).
Proof.
  destruct w as [sm col bl lk lb lt ob rm sp env cols].
  cbn [status_print_mode_static]. intros ->.
  destruct c as [text type|text|text|data|l]; unfold do_call;
    crunch; reflexivity.
Qed.

(** X7.  The scrolling mode does what the singleline mode does: with the
    mode cached as scrolling every sequence of calls writes the trace it
    writes with the mode cached as singleline, and leaves the same world, the
    cached mode apart. *)
Theorem scrolling_is_singleline (cs : list call) (w : World) :
  status_print_mode_static w = Some singleline ->
  do_calls cs (set_status_print_mode_static (Some scrolling) w)
  = (tt, set_status_print_mode_static (Some scrolling) (world_after (do_calls cs) w),
     trace_of (do_calls cs) w).
Proof.
  revert w. induction cs as [|c cs IH]; intros w S.
  - reflexivity.
  - rewrite (do_calls_cons c cs (set_status_print_mode_static (Some scrolling) w)).
    rewrite (trace_of_cons c cs w), (world_after_cons c cs w).
    pose proof (scrolling_call c w S) as C.
    assert (W : world_after (do_call c) (set_status_print_mode_static (Some scrolling) w)
                = set_status_print_mode_static (Some scrolling)
                    (world_after (do_call c) w))
      by (unfold world_after at 1; now rewrite C).
    assert (T : trace_of (do_call c) (set_status_print_mode_static (Some scrolling) w)
                = trace_of (do_call c) w)
      by (unfold trace_of at 1; now rewrite C).
    rewrite W, T.
    assert (S1 : status_print_mode_static (world_after (do_call c) w) = Some singleline)
      by (apply (proj2 (statics_kept_by_call c w)); exact S).
    pose proof (IH _ S1) as I.
    unfold world_after at 1, trace_of at 2. rewrite I. reflexivity.
Qed.

(** ** Raw output and the lock *)

Lemma PrintOnNewLine_unlocked (text : string) (w : World) :
  console_locked_ w = false ->
  PrintOnNewLine text w
  = (tt,
     set_have_blank_line_ (empty text || back_is LF text) w,
     ((if have_blank_line_ w then [] else [Write nl])
      ++ (if empty text then [] else [Write text]))%list).
Proof.
  destruct w as [sm col bl lk lb lt ob rm sp env cols]. cbn [console_locked_].
  intros ->. destruct text as [|a text]; destruct bl; reflexivity.
Qed.

Lemma trace_of_app (cs1 cs2 : list call) (w : World) :
  trace_of (do_calls (cs1 ++ cs2)) w
  = (trace_of (do_calls cs1) w
     ++ trace_of (do_calls cs2) (world_after (do_calls cs1) w))%list.
Proof.
  revert w. induction cs1 as [|c cs1 IH]; intros w.
  - reflexivity.
  - cbn [app]. rewrite !trace_of_cons, world_after_cons, IH. now rewrite app_assoc.
Qed.

Lemma empty_append (a b : string) : empty (a ++ b) = empty a && empty b.
Proof. destruct a; reflexivity. Qed.

(** A locked and an unlocked printer that agree on the blank-line flag do
    the same raw call: what the one writes, the other appends to its output
    buffer, and they still agree afterwards. *)
Lemma raw_call_simulation (c : call) (wl wu : World) :
  is_raw_call c = true ->
  console_locked_ wl = true -> console_locked_ wu = false ->
  line_buffer_ wl = "" -> have_blank_line_ wl = have_blank_line_ wu ->
  let wl' := world_after (do_call c) wl in
  let wu' := world_after (do_call c) wu in
  trace_of (do_call c) wl = []
  /\ console_locked_ wl' = true /\ console_locked_ wu' = false
  /\ line_buffer_ wl' = "" /\ have_blank_line_ wl' = have_blank_line_ wu'
  /\ output_buffer_ wl' = output_buffer_ wl ++ stdout_bytes (trace_of (do_call c) wu).
Proof.
  intros R Ll Lu B F. cbn zeta.
  destruct c as [text type|text|text|data|b]; try discriminate R; unfold do_call.
  - unfold world_after, trace_of.
    rewrite (PrintWithoutNewLine_locked _ _ Ll), (PrintWithoutNewLine_unlocked _ _ Lu).
    destruct wl, wu. cbn in Ll, Lu, B, F. subst. cbn [fst snd].
    repeat split.
    destruct text; cbn; now rewrite ?append_nil_r.
  - unfold world_after, trace_of.
    rewrite (PrintOnNewLine_locked _ _ Ll), (PrintOnNewLine_unlocked _ _ Lu).
    destruct wl, wu. cbn in Ll, Lu, B, F. subst. cbn [fst snd].
    repeat split.
    destruct have_blank_line_1; destruct text; cbn; now rewrite ?append_nil_r.
Qed.

Lemma raw_calls_simulation (cs : list call) (wl wu : World) :
  forallb is_raw_call cs = true ->
  console_locked_ wl = true -> console_locked_ wu = false ->
  line_buffer_ wl = "" -> have_blank_line_ wl = have_blank_line_ wu ->
  let wl' := world_after (do_calls cs) wl in
  trace_of (do_calls cs) wl = []
  /\ console_locked_ wl' = true /\ line_buffer_ wl' = ""
  /\ output_buffer_ wl' = output_buffer_ wl ++ stdout_bytes (trace_of (do_calls cs) wu)
  /\ have_blank_line_ wl' = have_blank_line_ (world_after (do_calls cs) wu).
Proof.
  revert wl wu. induction cs as [|c cs IH]; intros wl wu R Ll Lu B F; cbn zeta.
  - repeat split; try assumption. cbn. now rewrite append_nil_r.
  - cbn [forallb] in R. apply andb_prop in R. destruct R as [Rc Rcs].
    destruct (raw_call_simulation c wl wu Rc Ll Lu B F) as (T & L1 & L2 & B1 & F1 & O).
    cbn zeta in T, L1, L2, B1, F1, O.
    destruct (IH _ _ Rcs L1 L2 B1 F1) as (T' & L' & B' & O' & F').
    cbn zeta in T', L', B', O', F'.
    rewrite !trace_of_cons, !world_after_cons, T, T', L', B', O', O, F'.
    repeat split. now rewrite stdout_bytes_app, append_assoc.
Qed.

(** X9.  The lock is transparent for raw output.  From every reachable
    unlocked world, locking, any sequence of [PrintWithoutNewLine] and
    [PrintOnNewLine] calls, and unlocking puts on the stream the line-clear
    sequence followed by exactly the bytes the same calls write without the
    lock, newlines of [PrintOnNewLine] included: nothing is lost, added,
    duplicated or reordered. *)
Theorem raw_output_through_lock (cs : list call) (w : World) :
  reachable w -> console_locked_ w = false ->
  forallb is_raw_call cs = true ->
  trace_of (do_calls (CSetConsoleLocked true :: cs)) w = [Write erase_line; Flush]
  /\ stdout_bytes
       (trace_of
          (do_calls (CSetConsoleLocked true :: cs ++ [CSetConsoleLocked false])%list) w)
     = erase_line ++ stdout_bytes (trace_of (do_calls cs) w).
Proof.
  intros R L Rs. destruct (reachable_idle w R L) as [LB OB].
  assert (Lk : do_call (CSetConsoleLocked true) w
               = (tt, set_console_locked_ true w, [Write erase_line; Flush]))
    by (unfold do_call; exact (SetConsoleLocked_lock w L)).
  assert (W : world_after (do_call (CSetConsoleLocked true)) w = set_console_locked_ true w)
    by (unfold world_after; now rewrite Lk).
  assert (T : trace_of (do_call (CSetConsoleLocked true)) w = [Write erase_line; Flush])
    by (unfold trace_of; now rewrite Lk).
  destruct (raw_calls_simulation cs (set_console_locked_ true w) w Rs)
    as (T1 & L1 & B1 & O1 & _); try (destruct w; cbn in *; congruence).
  cbn zeta in T1, L1, B1, O1.
  split.
  - rewrite trace_of_cons, W, T, T1. reflexivity.
  - change (CSetConsoleLocked true :: cs ++ [CSetConsoleLocked false])%list
      with ((CSetConsoleLocked true :: cs) ++ [CSetConsoleLocked false])%list.
    rewrite trace_of_app, !trace_of_cons, world_after_cons, W, T, T1.
    change (trace_of (do_calls []) ?x) with (@nil event).
    rewrite app_nil_r. unfold do_call at 1. unfold trace_of at 1.
    rewrite (SetConsoleLocked_unlock _ L1). cbn [snd]. rewrite B1.
    cbn [empty]. unfold trace_of, ret. cbn [snd]. rewrite app_nil_r.
    rewrite stdout_bytes_app. cbn [stdout_bytes]. rewrite O1.
    assert (OB' : output_buffer_ (set_console_locked_ true w) = "")
      by (destruct w; exact OB).
    rewrite OB'. cbn [append].
    change (snd (do_calls cs w)) with (trace_of (do_calls cs) w).
    rewrite app_nil_r, append_nil_r.
    destruct (stdout_bytes (trace_of (do_calls cs) w)); cbn [empty stdout_bytes];
      now rewrite ?append_nil_r.
Qed.

(** X10.  Raw output may be handed over in pieces: two calls
    [PrintWithoutNewLine a] and [PrintWithoutNewLine b] and the single call
    with [a ++ b] put the same bytes on the stream and leave the same output
    buffer, pending line and lock, in every world. *)
Theorem PrintWithoutNewLine_split (a b : string) (w : World) :
  let two := PrintWithoutNewLine a ;; PrintWithoutNewLine b in
  let one := PrintWithoutNewLine (a ++ b) in
  stdout_bytes (trace_of two w) = stdout_bytes (trace_of one w)
  /\ output_buffer_ (world_after two w) = output_buffer_ (world_after one w)
  /\ line_buffer_ (world_after two w) = line_buffer_ (world_after one w)
  /\ console_locked_ (world_after two w) = console_locked_ (world_after one w).
Proof.
  cbn zeta. unfold world_after at 1 3 5, trace_of at 1. rewrite bind_unit. cbn [fst snd].
  destruct (console_locked_ w) eqn:L.
  - unfold world_after, trace_of. rewrite !(PrintWithoutNewLine_locked _ _ L).
    cbn [fst snd]. rewrite PrintWithoutNewLine_locked by (destruct w; exact L).
    destruct w. cbn [fst snd output_buffer_ line_buffer_ console_locked_
                     set_have_blank_line_ set_output_buffer_ set_line_buffer_ empty].
    repeat split. cbn [append]. now rewrite !append_assoc.
  - unfold world_after, trace_of. rewrite !(PrintWithoutNewLine_unlocked _ _ L).
    cbn [fst snd]. rewrite PrintWithoutNewLine_unlocked by (destruct w; exact L).
    destruct w. cbn [fst snd output_buffer_ line_buffer_ console_locked_
                     set_have_blank_line_].
    repeat split. rewrite stdout_bytes_app.
    destruct a; destruct b; cbn; now rewrite ?append_nil_r.
Qed.

(** X13.  A status line that is pending when raw output arrives on a locked
    console becomes part of that output: the line, as reformatted, and a
    newline are put in the output buffer ahead of the raw text, and
    unlocking writes the buffer in one piece.  The line is then neither cut
    to the window width nor preceded by a carriage return, whatever its kind
    and whatever the terminal. *)
Theorem pending_line_joins_raw_output (text out : string) (type : LineType) (w : World) :
  console_locked_ w = true -> reformatted w text <> "" ->
  let calls := [CPrint text type; CPrintWithoutNewLine out] in
  let w' := world_after (do_calls calls) w in
  trace_of (do_calls calls) w = []
  /\ line_buffer_ w' = ""
  /\ output_buffer_ w' = output_buffer_ w ++ reformatted w text ++ nl ++ out
  /\ trace_of (SetConsoleLocked false) w' = [Write (output_buffer_ w')].
Proof.
  intros L N. cbn zeta.
  assert (Em : empty (reformatted w text) = false).
  { destruct (empty (reformatted w text)) eqn:Em; [|reflexivity].
    apply empty_true_iff in Em. contradiction. }
  set (w1 := set_line_type_ type
               (set_line_buffer_ (reformatted w text)
                  (set_reformat_mode_static (Some (value_of GetReformatMode w)) w))).
  assert (L1 : console_locked_ w1 = true) by (destruct w; exact L).
  set (w2 := set_have_blank_line_
               (if empty out then have_blank_line_ w1 else front_is LF out)
               (set_output_buffer_
                  (output_buffer_ w1
                   ++ (if empty (line_buffer_ w1) then "" else line_buffer_ w1 ++ nl)
                   ++ out)
                  (set_line_buffer_ "" w1))).
  assert (L2 : console_locked_ w2 = true) by (destruct w; exact L).
  assert (E : do_calls [CPrint text type; CPrintWithoutNewLine out] w = (tt, w2, [])).
  { change (do_calls [CPrint text type; CPrintWithoutNewLine out])
      with (Print text type ;; (PrintWithoutNewLine out ;; ret tt)).
    rewrite (bind_pure _ _ _ _ _ (Print_locked _ _ _ L)). fold w1.
    rewrite (bind_pure _ _ _ _ _ (PrintWithoutNewLine_locked _ _ L1)).
    reflexivity. }
  assert (O : output_buffer_ w2 = output_buffer_ w ++ reformatted w text ++ nl ++ out).
  { subst w2 w1. destruct w.
    cbn [output_buffer_ line_buffer_ set_have_blank_line_ set_output_buffer_
         set_line_buffer_ set_line_type_ set_reformat_mode_static].
    rewrite Em. now rewrite append_assoc. }
  unfold world_after, trace_of at 1. rewrite E. cbn [fst snd].
  split; [reflexivity|]. split; [subst w2; now destruct w1|].
  split; [exact O|].
  unfold trace_of. rewrite (SetConsoleLocked_unlock _ L2). cbn [snd].
  assert (B2 : line_buffer_ w2 = "") by (subst w2; now destruct w1).
  rewrite B2. cbn [empty].
  assert (E2 : empty (output_buffer_ w2) = false).
  { rewrite O, !empty_append, Em. now rewrite andb_false_r. }
  rewrite E2. reflexivity.
Qed.

(** ** CustomFormat *)

Lemma match_here_absent (c : ascii) (p : regex) :
  existsb (is_literal c) p = true ->
  forall start not_null s caps,
    has_char c s = false -> match_here p start not_null s caps = None.
Proof.
  induction p as [|n p IH]; [discriminate|].
  cbn [existsb]. intros E start not_null.
  destruct n as [a|a min|i|i]; cbn [match_here].
  - intros s caps H. destruct s as [|x s]; [reflexivity|].
    cbn [has_char] in H. apply orb_false_elim in H. destruct H as [Hx Hs].
    destruct (atom_matches a x) eqn:A; [|reflexivity].
    apply orb_prop in E. destruct E as [E|E].
    + destruct a as [y| |neg rs]; try discriminate E.
      cbn [is_literal] in E. apply Ascii.eqb_eq in E. subst y.
      cbn [atom_matches] in A. rewrite Ascii.eqb_sym in A. congruence.
    + now apply IH.
  - cbn [is_literal orb] in E. generalize 0.
    intros k s. revert k. induction s as [|x s IHs]; intros k caps H.
    + destruct (Nat.leb min k); [now apply IH | reflexivity].
    + cbn [has_char] in H. apply orb_false_elim in H. destruct H as [Hx Hs].
      assert (St : (if Nat.leb min k
                    then match_here p start not_null (String x s) caps
                    else None) = None).
      { destruct (Nat.leb min k); [|reflexivity].
        apply IH; [exact E|]. cbn [has_char]. now rewrite Hx, Hs. }
      destruct (atom_matches a x); [|exact St].
      rewrite (IHs (S k) caps Hs). exact St.
  - cbn [is_literal orb] in E. intros s caps H. now apply IH.
  - cbn [is_literal orb] in E. intros s caps H. now apply IH.
Qed.

Lemma replace_from_absent (c : ascii) (p : regex) (fmt s : string) :
  existsb (is_literal c) p = true -> has_char c s = false ->
  replace_from p fmt s 0 = s.
Proof.
  intros E. induction s as [|a s IH]; intros H; cbn [replace_from].
  - unfold match_at. now rewrite (match_here_absent c p E).
  - unfold match_at. rewrite (match_here_absent c p E _ _ _ _ H).
    cbn [has_char] in H. apply orb_false_elim in H. destruct H as [_ Hs].
    now rewrite (IH Hs).
Qed.

Lemma regex_replace_absent (c : ascii) (input pattern fmt : string) :
  requires_char c pattern = true -> has_char c input = false ->
  regex_replace input pattern fmt = input.
Proof.
  unfold requires_char, regex_replace. destruct (parse pattern) as [p|]; [|reflexivity].
  intros E H. now apply (replace_from_absent c).
Qed.

Lemma rules_absent (chars : list ascii) (rs : list (string * string)) (s : string) :
  forallb (fun rule => existsb (fun c => requires_char c (fst rule)) chars) rs = true ->
  (forall c, In c chars -> has_char c s = false) ->
  fold_left apply_rule rs s = s.
Proof.
  intros R H. induction rs as [|rule rs IH]; [reflexivity|].
  cbn [forallb] in R. apply andb_prop in R. destruct R as [R1 R2].
  cbn [fold_left]. apply existsb_exists in R1. destruct R1 as (c & I & Q).
  unfold apply_rule at 2. rewrite (regex_replace_absent c _ _ _ Q (H c I)).
  now apply IH.
Qed.

(** X12.  A line that is not a build event passes through [CustomFormat]
    unchanged: every rule needs a slash, a dot, or a space together with a
    capital B or L, so a text without slash and dot that has no space, or
    has neither capital B nor capital L, comes out as it went in. *)
Theorem CustomFormat_plain_text (s : string) :
  has_char "/" s = false -> has_char "." s = false ->
  has_char " " s = false \/ (has_char "B" s = false /\ has_char "L" s = false) ->
  CustomFormat s = s.
Proof.
  intros Sl Dot [Sp | [B L]]; rewrite CustomFormat_fold.
  - apply (rules_absent ["/"; "."; " "]%char); [vm_compute; reflexivity|].
    intros c [<-|[<-|[<-|[]]]]; assumption.
  - apply (rules_absent ["/"; "."; "B"; "L"]%char); [vm_compute; reflexivity|].
    intros c [<-|[<-|[<-|[<-|[]]]]]; assumption.
Qed.

(** X11.  In pretty mode a status line printed on a locked console is
    formatted twice: [Print] keeps the formatted text as the pending line,
    and unlocking hands that text to [Print] again, which formats it once
    more before rendering.  [CustomFormat] is not idempotent, so the line can
    come out different from the same line printed without the lock. *)
Theorem pending_line_is_formatted_twice :
  (forall text type w,
     value_of GetReformatMode w = pretty -> console_locked_ w = true ->
     CustomFormat text <> "" ->
     let w' := world_after (Print text type) w in
     let w1 := set_have_blank_line_
                 (if empty (output_buffer_ w) then have_blank_line_ w
                  else front_is LF (output_buffer_ w))
                 (set_console_locked_ false w') in
     line_buffer_ w' = CustomFormat text
     /\ trace_of (SetConsoleLocked false) w'
        = ((if empty (output_buffer_ w) then [] else [Write (output_buffer_ w)])
           ++ trace_of (render (CustomFormat (CustomFormat text)) type) w1)%list)
  /\ (exists text, CustomFormat (CustomFormat text) <> CustomFormat text).
Proof.
  split.
  - intros text type w P L N. cbn zeta.
    assert (Em : empty (CustomFormat text) = false).
    { destruct (empty (CustomFormat text)) eqn:Em; [|reflexivity].
      apply empty_true_iff in Em. contradiction. }
    unfold world_after. rewrite (Print_locked _ _ _ L). cbn [fst snd].
    unfold reformatted. rewrite P.
    set (w' := set_line_type_ type _).
    assert (L' : console_locked_ w' = true) by (destruct w; exact L).
    split; [now destruct w|].
    unfold trace_of at 1. rewrite (SetConsoleLocked_unlock _ L'). cbn [snd].
    assert (B : line_buffer_ w' = CustomFormat text) by now destruct w.
    assert (T : line_type_ w' = type) by now destruct w.
    assert (O : output_buffer_ w' = output_buffer_ w) by now destruct w.
    assert (F : have_blank_line_ w' = have_blank_line_ w) by now destruct w.
    rewrite B, T, O, F, Em. f_equal.
    set (w1 := set_have_blank_line_ _ _).
    assert (L1 : console_locked_ w1 = false) by now destruct w.
    unfold trace_of. rewrite (Print_unlocked _ _ _ L1).
    assert (P1 : value_of GetReformatMode w1 = pretty) by now destruct w.
    unfold reformatted. rewrite P1.
    assert (W : set_reformat_mode_static (Some pretty) w1 = w1) by now destruct w.
    now rewrite W.
  - exists "a.cpp.cpp.o.o". vm_compute. discriminate.
Qed.

Lemma world_after_app (cs1 cs2 : list call) (w : World) :
  world_after (do_calls (cs1 ++ cs2)) w
  = world_after (do_calls cs2) (world_after (do_calls cs1) w).
Proof.
  revert w. induction cs1 as [|c cs1 IH]; intros w.
  - reflexivity.
  - cbn [app]. now rewrite !world_after_cons, IH.
Qed.

(** X14.  What the lock does change for raw output is the blank-line flag.
    After locking, a sequence of [PrintWithoutNewLine] and [PrintOnNewLine]
    calls, and unlocking, the console is unlocked with both buffers empty,
    and the flag is the one the calls leave without the lock only if they
    wrote nothing; otherwise it tells whether the first byte of all they
    wrote is a newline. *)
Theorem blank_line_flag_after_lock (cs : list call) (w : World) :
  reachable w -> console_locked_ w = false ->
  forallb is_raw_call cs = true ->
  let session := (CSetConsoleLocked true :: cs ++ [CSetConsoleLocked false])%list in
  let w' := world_after (do_calls session) w in
  let written := stdout_bytes (trace_of (do_calls cs) w) in
  console_locked_ w' = false /\ line_buffer_ w' = "" /\ output_buffer_ w' = ""
  /\ have_blank_line_ w'
     = if empty written then have_blank_line_ (world_after (do_calls cs) w)
       else front_is LF written.
Proof.
  intros R L Rs. destruct (reachable_idle w R L) as [LB OB]. cbn zeta.
  assert (Lk : do_call (CSetConsoleLocked true) w
               = (tt, set_console_locked_ true w, [Write erase_line; Flush]))
    by (unfold do_call; exact (SetConsoleLocked_lock w L)).
  assert (W : world_after (do_call (CSetConsoleLocked true)) w = set_console_locked_ true w)
    by (unfold world_after; now rewrite Lk).
  destruct (raw_calls_simulation cs (set_console_locked_ true w) w Rs)
    as (T1 & L1 & B1 & O1 & F1); try (destruct w; cbn in *; congruence).
  cbn zeta in T1, L1, B1, O1, F1.
  set (wl := world_after (do_calls cs) (set_console_locked_ true w)) in *.
  assert (E : world_after
                (do_calls (CSetConsoleLocked true :: cs ++ [CSetConsoleLocked false])%list) w
              = world_after (SetConsoleLocked false) wl).
  { change (CSetConsoleLocked true :: cs ++ [CSetConsoleLocked false])%list
      with ((CSetConsoleLocked true :: cs) ++ [CSetConsoleLocked false])%list.
    rewrite world_after_app. rewrite (world_after_cons (CSetConsoleLocked true) cs w), W.
    fold wl. rewrite (world_after_cons (CSetConsoleLocked false) [] wl). reflexivity. }
  rewrite E. unfold world_after at 1 2 3 4.
  rewrite (SetConsoleLocked_unlock _ L1). cbn [fst snd]. rewrite B1. cbn [empty].
  unfold world_after at 1 2 3 4, ret. cbn [fst snd].
  assert (OB' : output_buffer_ (set_console_locked_ true w) = "")
    by (destruct w; exact OB).
  rewrite OB' in O1. cbn [append] in O1. rewrite O1, F1.
  destruct wl. repeat split.
Qed.

(** * The lock, in full *)

Lemma render_trace (text : string) (type : LineType) (w : World) :
  trace_of (render text type) w = render_output w text type.
Proof.
  unfold render_output.
  destruct (value_of GetStatusPrintMode w) eqn:M.
  - destruct (smart_terminal_ w) eqn:S.
    + unfold trace_of. rewrite render_smart; [reflexivity | congruence | exact S].
    + unfold trace_of. rewrite render_plain; [reflexivity | now right].
  - unfold trace_of. rewrite render_plain; [reflexivity | now left].
  - destruct (smart_terminal_ w) eqn:S.
    + unfold trace_of. rewrite render_smart; [reflexivity | congruence | exact S].
    + unfold trace_of. rewrite render_plain; [reflexivity | now right].
Qed.

(** What an unlocked [Print] writes depends on the modes, the terminal and
    the window only. *)
Lemma render_output_frame (w w1 : World) (text : string) (type : LineType) :
  value_of GetStatusPrintMode w1 = value_of GetStatusPrintMode w ->
  smart_terminal_ w1 = smart_terminal_ w -> ws_col w1 = ws_col w ->
  render_output w1 text type = render_output w text type.
Proof. unfold render_output. now intros -> -> ->. Qed.

Lemma Print_unlocked_trace (text : string) (type : LineType) (w : World) :
  console_locked_ w = false ->
  trace_of (Print text type) w = unlocked_output w text type.
Proof.
  intros L. unfold trace_of. rewrite (Print_unlocked _ _ _ L).
  change (snd (render ?t ?ty ?w1)) with (trace_of (render t ty) w1).
  rewrite render_trace. unfold unlocked_output. apply render_output_frame.
  - apply GetStatusPrintMode_reformat_static.
  - now destruct w.
  - now destruct w.
Qed.

(** The world the unlock renders the pending line in behaves, for [Print],
    like the world that was locked. *)
Lemma unlocked_output_unlocking (b : bool) (w : World) (text : string) (type : LineType) :
  unlocked_output (set_have_blank_line_ b (set_console_locked_ false w)) text type
  = unlocked_output w text type.
Proof.
  destruct w as [sm col bl lk lb lt ob rm sp env cols].
  unfold unlocked_output, render_output, reformatted.
  destruct rm; destruct sp; reflexivity.
Qed.

Lemma SetConsoleLocked_unlock_trace (w : World) :
  console_locked_ w = true ->
  trace_of (SetConsoleLocked false) w
  = ((if empty (output_buffer_ w) then [] else [Write (output_buffer_ w)])
     ++ (if empty (line_buffer_ w) then []
         else unlocked_output w (line_buffer_ w) (line_type_ w)))%list.
Proof.
  intros L. unfold trace_of at 1. rewrite (SetConsoleLocked_unlock _ L). cbn [snd].
  f_equal. destruct (empty (line_buffer_ w)); [reflexivity|].
  rewrite Print_unlocked_trace by now destruct w.
  apply unlocked_output_unlocking.
Qed.

(** C2.  In every world reachable through [Print], [PrintWithoutNewLine],
    [PrintOnNewLine], [PrintOrBuffer] and [SetConsoleLocked], the pending line
    and the output buffer are empty unless the console is locked.  Unlocking
    drains both: it writes the whole output buffer, then the pending line, if
    there is one, exactly as an unlocked [Print] of that line writes it, and
    leaves the console unlocked with both buffers empty. *)
Theorem buffers_empty_unless_locked (w : World) :
  reachable w ->
  (console_locked_ w = false -> line_buffer_ w = "" /\ output_buffer_ w = "")
  /\ (let w' := world_after (SetConsoleLocked false) w in
      console_locked_ w' = false /\ line_buffer_ w' = "" /\ output_buffer_ w' = "")
  /\ (console_locked_ w = true ->
      trace_of (SetConsoleLocked false) w
      = ((if empty (output_buffer_ w) then [] else [Write (output_buffer_ w)])
         ++ (if empty (line_buffer_ w) then []
             else unlocked_output w (line_buffer_ w) (line_type_ w)))%list).
Proof.
  intros R. split; [exact (reachable_idle w R)|]. split.
  - cbn zeta. destruct (console_locked_ w) eqn:L.
    + unfold world_after. rewrite (SetConsoleLocked_unlock _ L). cbn [fst snd].
      repeat split; try reflexivity.
      match goal with
      | |- context [world_after ?p ?w1] =>
          assert (K : console_locked_ (world_after p w1) = false)
      end.
      { destruct (empty (line_buffer_ w)).
        - destruct w; cbn in L; subst; reflexivity.
        - destruct (Print_frame (line_buffer_ w) (line_type_ w)
                      (set_have_blank_line_
                         (if empty (output_buffer_ w) then have_blank_line_ w
                          else front_is LF (output_buffer_ w))
                         (set_console_locked_ false w))) as (H & _).
          cbn zeta in H. rewrite H. reflexivity. }
      destruct (world_after _ _). exact K.
    + pose proof (SetConsoleLocked_same w) as S. rewrite L in S.
      unfold world_after. rewrite S. cbn [fst snd].
      destruct (reachable_idle w R L) as [-> ->]. auto.
  - exact (SetConsoleLocked_unlock_trace w).
Qed.

Lemma held_after_ext (f g : string -> string) (cs : list call) (h : held) :
  (forall t, f t = g t) -> held_after f cs h = held_after g cs h.
Proof.
  intros E. revert h. induction cs as [|c cs IH]; intros h; [reflexivity|].
  unfold held_after in *. cbn [fold_left].
  assert (H : hold f h c = hold g h c)
    by (destruct c; cbn [hold]; now rewrite ?E).
  rewrite H. apply IH.
Qed.

Lemma locked_call_held (c : call) (w : World) :
  console_locked_ w = true -> keeps_locked c = true ->
  exists w1,
    do_call c w = (tt, w1, [])
    /\ console_locked_ w1 = true
    /\ held_of w1 = hold (reformatted w) (held_of w) c
    /\ (forall t, reformatted w1 t = reformatted w t)
    /\ (forall t ty, unlocked_output w1 t ty = unlocked_output w t ty).
Proof.
  intros L K. destruct c as [text type|text|text|data|b]; unfold do_call.
  - eexists. rewrite (Print_locked _ _ _ L).
    destruct w as [sm col bl lk lb lt ob rm sp env cols].
    unfold unlocked_output, render_output.
    destruct rm; destruct sp; repeat split; assumption.
  - eexists. rewrite (PrintWithoutNewLine_locked _ _ L).
    destruct w as [sm col bl lk lb lt ob rm sp env cols].
    unfold unlocked_output, render_output.
    destruct rm; destruct sp; repeat split; assumption.
  - eexists. rewrite (PrintOnNewLine_locked _ _ L).
    destruct w as [sm col bl lk lb lt ob rm sp env cols].
    unfold unlocked_output, render_output.
    destruct rm; destruct sp; repeat split; assumption.
  - eexists. rewrite (PrintOrBuffer_locked _ _ L).
    destruct w as [sm col bl lk lb lt ob rm sp env cols].
    unfold unlocked_output, render_output.
    destruct rm; destruct sp; repeat split; assumption.
  - destruct b; [|discriminate K]. exists w.
    pose proof (SetConsoleLocked_same w) as S. rewrite L in S.
    repeat split; [exact S | exact L].
Qed.

Lemma locked_calls_held (cs : list call) (w : World) :
  console_locked_ w = true -> forallb keeps_locked cs = true ->
  exists w',
    do_calls cs w = (tt, w', [])
    /\ console_locked_ w' = true
    /\ held_of w' = held_after (reformatted w) cs (held_of w)
    /\ (forall t ty, unlocked_output w' t ty = unlocked_output w t ty).
Proof.
  revert w. induction cs as [|c cs IH]; intros w L K.
  - exists w. repeat split. exact L.
  - cbn [forallb] in K. apply andb_prop in K. destruct K as [Kc Kcs].
    destruct (locked_call_held c w L Kc) as (w1 & E1 & L1 & H1 & R1 & U1).
    destruct (IH w1 L1 Kcs) as (w' & E' & L' & H' & U').
    exists w'.
    change (do_calls (c :: cs)) with (do_call c ;; do_calls cs).
    rewrite (bind_pure _ _ _ _ _ E1). repeat split; try assumption.
    + rewrite H', H1. unfold held_after at 2. cbn [fold_left].
      apply held_after_ext. exact R1.
    + intros t ty. now rewrite U', U1.
Qed.

Lemma do_calls_app (cs1 cs2 : list call) (w : World) :
  do_calls (cs1 ++ cs2) w
  = (tt, world_after (do_calls cs2) (world_after (do_calls cs1) w),
     (trace_of (do_calls cs1) w
      ++ trace_of (do_calls cs2) (world_after (do_calls cs1) w))%list).
Proof.
  pose proof (world_after_app cs1 cs2 w) as W.
  pose proof (trace_of_app cs1 cs2 w) as T.
  unfold world_after at 1 in W. unfold trace_of at 1 in T.
  destruct (do_calls (cs1 ++ cs2) w) as [[[] w'] t]. cbn [fst snd] in W, T.
  now rewrite W, T.
Qed.

(** On a locked console a [Print] that another [Print] follows at once might
    as well not have been made. *)
Lemma replaced_Print (t1 t2 : string) (ty1 ty2 : LineType) (rest : list call)
  (w : World) :
  console_locked_ w = true ->
  do_calls (CPrint t1 ty1 :: CPrint t2 ty2 :: rest) w
  = do_calls (CPrint t2 ty2 :: rest) w.
Proof.
  intros L.
  change (do_calls (CPrint t1 ty1 :: CPrint t2 ty2 :: rest))
    with (Print t1 ty1 ;; (Print t2 ty2 ;; do_calls rest)).
  change (do_calls (CPrint t2 ty2 :: rest)) with (Print t2 ty2 ;; do_calls rest).
  rewrite (bind_pure _ _ _ _ _ (Print_locked t1 ty1 w L)).
  pose proof (Print_locked_twice t1 t2 ty1 ty2 w L) as T.
  unfold world_after in T. rewrite (Print_locked t1 ty1 w L) in T. cbn [fst snd] in T.
  unfold bind. now rewrite T.
Qed.

(** C1, as the code has it.  While the console is locked no call of [Print],
    [PrintWithoutNewLine], [PrintOnNewLine] or [PrintOrBuffer], nor a repeated
    [SetConsoleLocked true], writes to the stream, and the console stays
    locked.  What is held back afterwards is told call by call by [hold]:
    [Print] replaces the pending line by its reformatted text and its kind and
    leaves the output buffer alone; the raw operations append their text to
    the output buffer, a pending line and its newline first.  So the raw
    texts stand in the buffer in the order of the calls, and a [Print] that
    another [Print] follows at once leaves no mark: whatever comes later,
    the unlock included, goes as if it had not been made.
    [SetConsoleLocked false] then writes the whole output buffer and after it
    the pending line, if there is one, as an unlocked [Print] writes it. *)
Theorem locked_output_is_buffered (cs : list call) (w : World) :
  console_locked_ w = true -> forallb keeps_locked cs = true ->
  let w' := world_after (do_calls cs) w in
  trace_of (do_calls cs) w = []
  /\ console_locked_ w' = true
  /\ held_of w' = held_after (reformatted w) cs (held_of w)
  /\ (exists added,
        output_buffer_ w' = output_buffer_ w ++ added
        /\ in_order (raw_texts cs) added)
  /\ (forall t1 ty1 t2 ty2 rest,
        do_calls (cs ++ CPrint t1 ty1 :: CPrint t2 ty2 :: rest) w
        = do_calls (cs ++ CPrint t2 ty2 :: rest) w)
  /\ trace_of (SetConsoleLocked false) w'
     = ((if empty (output_buffer_ w') then [] else [Write (output_buffer_ w')])
        ++ (if empty (line_buffer_ w') then []
            else unlocked_output w (line_buffer_ w') (line_type_ w')))%list.
Proof.
  intros L O. cbn zeta.
  destruct (locked_calls cs w L O) as (w' & added & E & L' & B & I).
  destruct (locked_calls_held cs w L O) as (w2 & E2 & _ & H & U).
  assert (W : w2 = w') by congruence. subst w2.
  assert (Wa : world_after (do_calls cs) w = w') by (unfold world_after; now rewrite E).
  assert (Tr : trace_of (do_calls cs) w = []) by (unfold trace_of; now rewrite E).
  rewrite Wa.
  split; [exact Tr|]. split; [exact L'|]. split; [exact H|].
  split; [now exists added|]. split.
  - intros t1 ty1 t2 ty2 rest. rewrite !do_calls_app, Wa.
    pose proof (replaced_Print t1 t2 ty1 ty2 rest w' L') as Q.
    assert (Qw : world_after (do_calls (CPrint t1 ty1 :: CPrint t2 ty2 :: rest)) w'
                 = world_after (do_calls (CPrint t2 ty2 :: rest)) w')
      by (unfold world_after; now rewrite Q).
    assert (Qt : trace_of (do_calls (CPrint t1 ty1 :: CPrint t2 ty2 :: rest)) w'
                 = trace_of (do_calls (CPrint t2 ty2 :: rest)) w')
      by (unfold trace_of; now rewrite Q).
    now rewrite Qw, Qt.
  - rewrite (SetConsoleLocked_unlock_trace w' L'). f_equal.
    destruct (empty (line_buffer_ w')); [reflexivity | apply U].
Qed.

End Facts.

(** * Examples *)

(** A progress line of a CMake build: the counter is coloured, the build
    directories are dropped from the path. *)
Example CustomFormat_progress_line :
  strip_ansi
    (CustomFormat "[ 3/120] Building CXX object src/CMakeFiles/foo.dir/a/b.cpp.o")
    false
  = "[ 3/120] building c++ object src/a/b.cpp".
Proof. vm_compute. reflexivity. Qed.

(** The order of the rules matters: with the rule for C ahead of the rule
    for C++ the same line comes out differently. *)
Example CustomFormat_order_matters :
  strip_ansi
    (fold_left apply_rule
       [("Building C(.*) ([^ ]+)", "building c  $1 $2");
        ("Building CXX(.*) ([^ ]+)", "building c++$1 $2")]
       "Building CXX obj foo.o") false
  = "building c  XX obj foo.o"
  /\ strip_ansi
       (fold_left apply_rule
          [("Building CXX(.*) ([^ ]+)", "building c++$1 $2");
           ("Building C(.*) ([^ ]+)", "building c  $1 $2")]
          "Building CXX obj foo.o") false
     = "building c++ obj foo.o".
Proof. split; vm_compute; reflexivity. Qed.

(** * The theorems at work on concrete worlds *)

(** ** C1 as stated fails: a status line printed while locked and replaced
    by a later one is never written. *)
Lemma locked_Print_is_lost :
  let locked :=
    world_after
      (do_calls ElideMiddle_spec
         [CSetConsoleLocked true; CPrint "a" FULL; CPrint "b" FULL]) pipe_world in
  console_locked_ locked = true
  /\ trace_of (do_calls ElideMiddle_spec [CPrint "a" FULL; CPrint "b" FULL])
       (world_after (SetConsoleLocked ElideMiddle_spec true) pipe_world) = []
  /\ stdout_bytes (trace_of (SetConsoleLocked ElideMiddle_spec false) locked)
     = "b" ++ nl
  /\ ~ in_order ["a"; "b"]
         (stdout_bytes (trace_of (SetConsoleLocked ElideMiddle_spec false) locked)).
Proof.
  cbn zeta. split; [reflexivity|]. split; [reflexivity|]. split; [reflexivity|].
  intros (before & after & E & _).
  apply (f_equal (has_char "a")) in E.
  rewrite !has_char_append in E. cbn in E. rewrite orb_true_r in E. discriminate E.
Qed.

Lemma locked_output_is_buffered_witness :
  let w := world_after (SetConsoleLocked ElideMiddle_spec true) pipe_world in
  let cs := [CPrint "status" ELIDE; CPrintWithoutNewLine "out"; CPrintOnNewLine "err";
             CPrint "dropped" FULL; CPrint "last" ELIDE] in
  let w' := world_after (do_calls ElideMiddle_spec cs) w in
  console_locked_ w = true /\ forallb keeps_locked cs = true
  /\ trace_of (do_calls ElideMiddle_spec cs) w = []
  /\ held_of w'
     = {| held_output := "status" ++ nl ++ "out" ++ nl ++ "err";
          held_line := "last"; held_kind := ELIDE; held_blank := false |}
  /\ trace_of (SetConsoleLocked ElideMiddle_spec false) w'
     = [Write ("status" ++ nl ++ "out" ++ nl ++ "err"); Write ("last" ++ nl)].
Proof.
  cbn zeta. split; [reflexivity|]. split; [reflexivity|].
  pose proof (locked_output_is_buffered ElideMiddle_spec
                [CPrint "status" ELIDE; CPrintWithoutNewLine "out";
                 CPrintOnNewLine "err"; CPrint "dropped" FULL; CPrint "last" ELIDE]
                (world_after (SetConsoleLocked ElideMiddle_spec true) pipe_world)
                eq_refl eq_refl) as (T & _ & H & _ & _ & U).
  split; [exact T|]. split.
  - rewrite H. reflexivity.
  - rewrite U. reflexivity.
Defined.

(** ** C2 *)
Lemma buffers_empty_unless_locked_witness :
  let w :=
    world_after (do_call ElideMiddle_spec (CPrint "last" ELIDE))
      (world_after (do_call ElideMiddle_spec (CPrintWithoutNewLine "out"))
         (world_after (do_call ElideMiddle_spec (CPrint "status" ELIDE))
            (world_after (do_call ElideMiddle_spec (CSetConsoleLocked true))
               pipe_world))) in
  let w' := world_after (SetConsoleLocked ElideMiddle_spec false) w in
  reachable ElideMiddle_spec w /\ console_locked_ w = true
  /\ output_buffer_ w = "status" ++ nl ++ "out" /\ line_buffer_ w = "last"
  /\ trace_of (SetConsoleLocked ElideMiddle_spec false) w
     = [Write ("status" ++ nl ++ "out"); Write ("last" ++ nl)]
  /\ console_locked_ w' = false /\ line_buffer_ w' = "" /\ output_buffer_ w' = "".
Proof.
  cbn zeta.
  assert (R : reachable ElideMiddle_spec
    (world_after (do_call ElideMiddle_spec (CPrint "last" ELIDE))
      (world_after (do_call ElideMiddle_spec (CPrintWithoutNewLine "out"))
         (world_after (do_call ElideMiddle_spec (CPrint "status" ELIDE))
            (world_after (do_call ElideMiddle_spec (CSetConsoleLocked true))
               pipe_world)))))
    by (repeat apply reach_call; apply reach_new).
  destruct (buffers_empty_unless_locked ElideMiddle_spec _ R) as (_ & E & D).
  split; [exact R|]. split; [reflexivity|]. split; [reflexivity|].
  split; [reflexivity|]. split.
  - rewrite (D eq_refl). reflexivity.
  - exact E.
Defined.

(** ** C3 as stated fails: a [Print] that ends its output with a newline
    leaves the flag false when it was false, and the next [PrintOnNewLine]
    puts an empty line on the terminal. *)
Lemma Print_newline_keeps_flag_false :
  let w := world_after (PrintWithoutNewLine "abc") pipe_world in
  let w' := world_after (Print ElideMiddle_spec "x" FULL) w in
  have_blank_line_ w = false
  /\ trace_of (Print ElideMiddle_spec "x" FULL) w = [Write ("x" ++ nl)]
  /\ back_is LF (stdout_bytes (trace_of (Print ElideMiddle_spec "x" FULL) w)) = true
  /\ have_blank_line_ w' = false
  /\ trace_of (PrintOnNewLine "y") w' = [Write nl; Write "y"].
Proof. cbn zeta. repeat split; reflexivity. Qed.

Lemma blank_line_flag_witness :
  console_locked_ pipe_world = false
  /\ back_is LF (stdout_bytes (trace_of (Print ElideMiddle_spec "x" FULL) pipe_world))
     = true
  /\ have_blank_line_ pipe_world = true
  /\ have_blank_line_ (world_after (Print ElideMiddle_spec "x" FULL) pipe_world) = true.
Proof.
  split; [reflexivity|]. split; [reflexivity|]. split; [reflexivity|].
  exact (proj1 (proj2 (proj2 (blank_line_flag ElideMiddle_spec)) "x" FULL pipe_world
                  eq_refl)
           eq_refl eq_refl).
Defined.

(** ** C6 *)
Lemma SetConsoleLocked_idempotent_witness :
  reachable ElideMiddle_spec pipe_world /\ console_locked_ pipe_world = false
  /\ (SetConsoleLocked ElideMiddle_spec true ;; SetConsoleLocked ElideMiddle_spec false)
       pipe_world
     = (tt, pipe_world, [Write erase_line; Flush]).
Proof.
  split; [apply reach_new|]. split; [reflexivity|].
  exact (proj1 (proj2 (SetConsoleLocked_idempotent ElideMiddle_spec pipe_world))
           (reach_new _ _ _ _ _ _ _) eq_refl).
Defined.

(** ** C7 *)
Lemma child_output_scenario_witness :
  reachable ElideMiddle_spec pipe_world /\ console_locked_ pipe_world = false
  /\ stdout_bytes
       (trace_of
          (do_calls ElideMiddle_spec
             [CSetConsoleLocked true; CPrintWithoutNewLine "child output";
              CSetConsoleLocked false]) pipe_world)
     = erase_line ++ "child output".
Proof.
  split; [apply reach_new|]. split; [reflexivity|].
  destruct (child_output_scenario ElideMiddle_spec pipe_world
              (reach_new _ _ _ _ _ _ _) eq_refl) as (_ & _ & _ & E).
  unfold trace_of. rewrite E. reflexivity.
Defined.

(** ** C8 *)
Lemma Print_pretty_formats_first_witness :
  value_of GetReformatMode pretty_tty_world = pretty
  /\ value_of GetStatusPrintMode pretty_tty_world <> multiline
  /\ console_locked_ pretty_tty_world = false
  /\ smart_terminal_ pretty_tty_world = true
  /\ ws_col pretty_tty_world = Some 80
  /\ stdout_bytes
       (trace_of (Print ElideMiddle_spec "Building CXX obj foo.cpp.o" ELIDE)
          pretty_tty_world)
     = cr ++ esc "[32mbuilding c++ obj " ++ esc "[34mfoo.cpp" ++ esc "[0m"
          ++ clear_to_eol.
Proof.
  split; [reflexivity|]. split; [discriminate|]. split; [reflexivity|].
  split; [reflexivity|]. split; [reflexivity|].
  rewrite (proj2 (proj2 (proj2 (proj2 (Print_pretty_formats_first ElideMiddle_spec))))
             pretty_tty_world 79 eq_refl ltac:(discriminate) eq_refl eq_refl eq_refl).
  reflexivity.
Defined.

(** ** C9 as stated fails: in multiline mode a text with a NUL byte is
    written only up to that byte. *)
Lemma multiline_Print_stops_at_NUL :
  value_of GetStatusPrintMode multiline_world = multiline
  /\ console_locked_ multiline_world = false
  /\ trace_of (Print ElideMiddle_spec a_nul_b FULL) multiline_world
     = [Write ("a" ++ nl)]
  /\ trace_of (Print ElideMiddle_spec a_nul_b FULL) multiline_world
     <> [Write (a_nul_b ++ nl)].
Proof. repeat split; try reflexivity. discriminate. Qed.

Lemma modes_and_multiline_witness :
  value_of GetStatusPrintMode multiline_world = multiline
  /\ console_locked_ multiline_world = false
  /\ nul_free (reformatted multiline_world "[1/2] a") = true
  /\ trace_of (Print ElideMiddle_spec "[1/2] a" ELIDE) multiline_world
     = [Write ("[1/2] a" ++ nl)].
Proof.
  split; [reflexivity|]. split; [reflexivity|]. split; [reflexivity|].
  exact (proj2 (proj2 (proj2 (proj2 (proj2 (modes_and_multiline ElideMiddle_spec))))
                  "[1/2] a" ELIDE multiline_world eq_refl eq_refl)
           eq_refl).
Defined.

(** ** C10 as stated fails: when the last [Print] of a locked interval has an
    empty text, unlocking renders nothing, where [Print] of that text on the
    unlocked console writes a newline. *)
Lemma empty_pending_line_is_not_rendered :
  let w :=
    world_after
      (do_calls ElideMiddle_spec
         [CSetConsoleLocked true; CPrint "a" FULL; CPrint "" FULL]) pipe_world in
  line_buffer_ w = "" /\ line_type_ w = FULL
  /\ trace_of (SetConsoleLocked ElideMiddle_spec false) w = []
  /\ trace_of (Print ElideMiddle_spec "" FULL) (set_console_locked_ false w)
     = [Write nl].
Proof. cbn zeta. repeat split; reflexivity. Qed.

Lemma last_locked_Print_wins_witness :
  let w := world_after (SetConsoleLocked ElideMiddle_spec true) pipe_world in
  console_locked_ w = true
  /\ stdout_bytes
       (trace_of (SetConsoleLocked ElideMiddle_spec false)
          (world_after
             (do_calls ElideMiddle_spec
                [CPrint "[1/3] a" ELIDE; CPrint "[2/3] b" ELIDE; CPrint "[3/3] c" ELIDE])
             w))
     = "[3/3] c" ++ nl.
Proof.
  cbn zeta. split; [reflexivity|].
  destruct (last_locked_Print_wins ElideMiddle_spec
              [("[1/3] a", ELIDE); ("[2/3] b", ELIDE)] "[3/3] c" ELIDE
              (world_after (SetConsoleLocked ElideMiddle_spec true) pipe_world)
              eq_refl) as (E & _ & _ & _ & T).
  unfold world_after at 1. cbn [map app fst snd] in E. rewrite E. cbn [fst snd].
  rewrite T. reflexivity.
Defined.

(** * The further properties at work *)

Lemma terminal_state_is_fixed_witness :
  let w' := world_after (do_call ElideMiddle_spec (CPrint "[1/2] a" ELIDE)) tty_world in
  evolves ElideMiddle_spec tty_world w'
  /\ smart_terminal_ w' = smart_terminal_ tty_world
  /\ supports_color_ w' = supports_color_ tty_world.
Proof.
  cbn zeta.
  assert (E : evolves ElideMiddle_spec tty_world
                (world_after (do_call ElideMiddle_spec (CPrint "[1/2] a" ELIDE)) tty_world))
    by (apply ev_call; apply ev_refl).
  split; [exact E|].
  exact (proj1 (terminal_state_is_fixed ElideMiddle_spec) _ _ E).
Defined.

Lemma TerminalColumns_answer_witness :
  ws_col tty_world = Some 80 /\ value_of (TerminalColumns 40) tty_world = 80.
Proof.
  split; [reflexivity|].
  exact (proj1 (proj2 (TerminalColumns_answer 40 tty_world)) 79 eq_refl).
Defined.

Lemma Print_plain_lines_witness :
  console_locked_ multiline_world = false
  /\ value_of GetStatusPrintMode multiline_world = multiline
  /\ trace_of
       (do_calls ElideMiddle_spec
          (map print_call [("[1/2] a", ELIDE); ("[2/2] b", ELIDE)])) multiline_world
     = [Write ("[1/2] a" ++ nl); Write ("[2/2] b" ++ nl)].
Proof.
  split; [reflexivity|]. split; [reflexivity|].
  rewrite (proj1 (Print_plain_lines ElideMiddle_spec
                    [("[1/2] a", ELIDE); ("[2/2] b", ELIDE)] multiline_world
                    eq_refl (or_introl eq_refl))).
  reflexivity.
Defined.

Lemma Print_smart_lines_witness :
  console_locked_ tty_world = false
  /\ value_of GetStatusPrintMode tty_world <> multiline
  /\ smart_terminal_ tty_world = true
  /\ stdout_bytes
       (trace_of
          (do_calls ElideMiddle_spec
             (map print_call [("[1/2] a", ELIDE); ("[2/2] b", ELIDE)])) tty_world)
     = cr ++ "[1/2] a" ++ clear_to_eol ++ cr ++ "[2/2] b" ++ clear_to_eol.
Proof.
  split; [reflexivity|]. split; [discriminate|]. split; [reflexivity|].
  rewrite (proj1 (Print_smart_lines ElideMiddle_spec
                    [("[1/2] a", ELIDE); ("[2/2] b", ELIDE)] tty_world
                    eq_refl ltac:(discriminate) eq_refl)).
  reflexivity.
Defined.

Lemma scrolling_is_singleline_witness :
  let w := set_status_print_mode_static (Some singleline) tty_world in
  status_print_mode_static w = Some singleline
  /\ trace_of (do_calls ElideMiddle_spec [CPrint "[1/2] a" ELIDE])
       (set_status_print_mode_static (Some scrolling) w)
     = [Write cr; Write "[1/2] a"; Write clear_to_eol; Flush].
Proof.
  cbn zeta. split; [reflexivity|].
  unfold trace_of.
  rewrite (scrolling_is_singleline ElideMiddle_spec [CPrint "[1/2] a" ELIDE]
             (set_status_print_mode_static (Some singleline) tty_world) eq_refl).
  reflexivity.
Defined.

Lemma raw_output_through_lock_witness :
  let cs := [CPrintOnNewLine "out"; CPrintWithoutNewLine "more"] in
  reachable ElideMiddle_spec pipe_world /\ console_locked_ pipe_world = false
  /\ forallb is_raw_call cs = true
  /\ stdout_bytes
       (trace_of
          (do_calls ElideMiddle_spec
             (CSetConsoleLocked true :: cs ++ [CSetConsoleLocked false])%list)
          pipe_world)
     = erase_line ++ "outmore".
Proof.
  cbn zeta. split; [apply reach_new|]. split; [reflexivity|]. split; [reflexivity|].
  rewrite (proj2 (raw_output_through_lock ElideMiddle_spec
                    [CPrintOnNewLine "out"; CPrintWithoutNewLine "more"] pipe_world
                    (reach_new _ _ _ _ _ _ _) eq_refl eq_refl)).
  reflexivity.
Defined.

Lemma pending_line_is_formatted_twice_witness :
  let w := world_after (SetConsoleLocked ElideMiddle_spec true) pretty_tty_world in
  value_of GetReformatMode w = pretty /\ console_locked_ w = true
  /\ CustomFormat "a.cpp.cpp.o.o" <> ""
  /\ line_buffer_ (world_after (Print ElideMiddle_spec "a.cpp.cpp.o.o" ELIDE) w)
     = "a.cpp.cpp.o".
Proof.
  cbn zeta. split; [reflexivity|]. split; [reflexivity|].
  assert (N : CustomFormat "a.cpp.cpp.o.o" <> "") by (vm_compute; discriminate).
  split; [exact N|].
  rewrite (proj1 (proj1 (pending_line_is_formatted_twice ElideMiddle_spec)
                    "a.cpp.cpp.o.o" ELIDE
                    (world_after (SetConsoleLocked ElideMiddle_spec true) pretty_tty_world)
                    eq_refl eq_refl N)).
  vm_compute. reflexivity.
Defined.

Lemma CustomFormat_plain_text_witness :
  has_char "/" "compiling foo" = false /\ has_char "." "compiling foo" = false
  /\ has_char "B" "compiling foo" = false /\ has_char "L" "compiling foo" = false
  /\ CustomFormat "compiling foo" = "compiling foo".
Proof.
  split; [reflexivity|]. split; [reflexivity|]. split; [reflexivity|].
  split; [reflexivity|].
  exact (CustomFormat_plain_text "compiling foo" eq_refl eq_refl
           (or_intror (conj eq_refl eq_refl))).
Defined.

Lemma pending_line_joins_raw_output_witness :
  let w := world_after (SetConsoleLocked ElideMiddle_spec true) tty_world in
  console_locked_ w = true /\ reformatted w "[1/2] a" <> ""
  /\ trace_of (SetConsoleLocked ElideMiddle_spec false)
       (world_after
          (do_calls ElideMiddle_spec [CPrint "[1/2] a" ELIDE; CPrintWithoutNewLine "out"])
          w)
     = [Write ("[1/2] a" ++ nl ++ "out")].
Proof.
  cbn zeta. split; [reflexivity|].
  assert (N : reformatted (world_after (SetConsoleLocked ElideMiddle_spec true) tty_world)
                "[1/2] a" <> "") by discriminate.
  split; [exact N|].
  destruct (pending_line_joins_raw_output ElideMiddle_spec "[1/2] a" "out" ELIDE
              (world_after (SetConsoleLocked ElideMiddle_spec true) tty_world)
              eq_refl N) as (_ & _ & O & T).
  rewrite T, O. reflexivity.
Defined.

Lemma blank_line_flag_after_lock_witness :
  let cs := [CPrintOnNewLine ("x" ++ nl)] in
  reachable ElideMiddle_spec pipe_world /\ console_locked_ pipe_world = false
  /\ forallb is_raw_call cs = true
  /\ have_blank_line_ (world_after (do_calls ElideMiddle_spec cs) pipe_world) = true
  /\ have_blank_line_
       (world_after
          (do_calls ElideMiddle_spec
             (CSetConsoleLocked true :: cs ++ [CSetConsoleLocked false])%list)
          pipe_world)
     = false.
Proof.
  cbn zeta. split; [apply reach_new|]. split; [reflexivity|]. split; [reflexivity|].
  split; [reflexivity|].
  destruct (blank_line_flag_after_lock ElideMiddle_spec [CPrintOnNewLine ("x" ++ nl)]
              pipe_world (reach_new _ _ _ _ _ _ _) eq_refl eq_refl) as (_ & _ & _ & F).
  rewrite F. reflexivity.
Defined.
